(** * handball-stats: the match/event session state machine

    A shallow embedding of [stats_engine.py], [google_io.py] and [ui_app.py]
    and the properties of the wizard's transitions.

    Conventions of the embedding:
    - a Python [str] is a [string] holding its UTF-8 bytes;
    - a Python value of type [Any] is a [value];
    - an event (a [dict] whose key set varies from one constructor to the
      next) is a [gmap string value]; players and matches (dicts with one
      fixed key set) are records;
    - code that touches [st.session_state], the spreadsheet or the clock runs
      in the monad [M], a state monad over [World] whose results are
      [outcome]s: state changes made before an exception stay made. *)

From Stdlib Require Import Ascii.
From stdpp Require Import gmap strings list pretty.

Open Scope string_scope.
Open Scope nat_scope.
Open Scope list_scope.
Open Scope stdpp_scope.

(** ** Python strings *)

Definition byte_string (l : list nat) : string :=
  String.string_of_list_ascii (Ascii.ascii_of_nat <$> l).

(** The characters [str.isspace] accepts, as UTF-8 byte sequences:
    U+0009..U+000D, U+001C..U+001F, U+0020, U+0085, U+00A0, U+1680,
    U+2000..U+200A, U+2028, U+2029, U+202F, U+205F, U+3000. *)
Definition py_whitespace : list string :=
  byte_string <$>
    [ [9]; [10]; [11]; [12]; [13]; [28]; [29]; [30]; [31]; [32];
      [194; 133]; [194; 160]; [225; 154; 128];
      [226; 128; 128]; [226; 128; 129]; [226; 128; 130]; [226; 128; 131];
      [226; 128; 132]; [226; 128; 133]; [226; 128; 134]; [226; 128; 135];
      [226; 128; 136]; [226; 128; 137]; [226; 128; 138];
      [226; 128; 168]; [226; 128; 169]; [226; 128; 175];
      [226; 129; 159]; [227; 128; 128] ].

Fixpoint string_drop (n : nat) (s : string) : string :=
  match n, s with
  | S k, String _ s' => string_drop k s'
  | _, _ => s
  end.

(** Removes one leading occurrence of one of [pats], if there is one. *)
Fixpoint drop_one (pats : list string) (s : string) : option string :=
  match pats with
  | [] => None
  | p :: ps =>
      if String.prefix p s then Some (string_drop (String.length p) s)
      else drop_one ps s
  end.

Fixpoint strip_left (pats : list string) (fuel : nat) (s : string) : string :=
  match fuel with
  | O => s
  | S f =>
      match drop_one pats s with
      | Some s' => strip_left pats f s'
      | None => s
      end
  end.

Definition py_lstrip (s : string) : string :=
  strip_left py_whitespace (String.length s) s.

(** A trailing whitespace character is a leading reversed one of the
    reversed string. *)
Definition py_rstrip (s : string) : string :=
  String.rev
    (strip_left (String.rev <$> py_whitespace) (String.length s) (String.rev s)).

(** [s.strip()] *)
Definition py_strip (s : string) : string := py_rstrip (py_lstrip s).

(** Scan of [s] for a non-empty [old]: [skip] counts the characters of a
    match just replaced that are still to be passed over. *)
Fixpoint replace_from (old new : string) (skip : nat) (s : string) : string :=
  match s with
  | EmptyString => EmptyString
  | String c s' =>
      match skip with
      | S k => replace_from old new k s'
      | O =>
          if String.prefix old s
          then new +:+ replace_from old new (String.length old - 1) s'
          else String c (replace_from old new 0 s')
      end
  end.

Fixpoint interleave (new s : string) : string :=
  match s with
  | EmptyString => new
  | String c s' => new +:+ String c (interleave new s')
  end.

(** [s.replace(old, new)]: every non-overlapping occurrence, left to right;
    an empty [old] matches before every character and at the end. *)
Definition py_replace (old new s : string) : string :=
  match old with
  | EmptyString => interleave new s
  | _ => replace_from old new 0 s
  end.

(** Decimal rendering with leading zeros up to [width] digits. *)
Fixpoint zeros (n : nat) : string :=
  match n with
  | O => EmptyString
  | S k => "0" +:+ zeros k
  end.

Definition zero_pad (width : nat) (n : N) : string :=
  let digits := pretty n in
  zeros (width - String.length digits) +:+ digits.

(** ** Dates and times *)

(** [datetime.date]. *)
Record date := mk_date { year : N; month : N; day : N }.

(** [datetime.datetime] and [pd.Timestamp]. *)
Record datetime :=
  mk_datetime { dt_date : date; hour : N; minute : N; second : N }.

(** [d.strftime('%Y-%m-%d')]. For years below 1000 the padding of [%Y] is
    left to the platform's C library; the four-digit form is the one modelled. *)
Definition strftime_ymd (d : date) : string :=
  zero_pad 4 (year d) +:+ "-" +:+ zero_pad 2 (month d) +:+ "-" +:+ zero_pad 2 (day d).

(** [t.strftime('%Y-%m-%d %H:%M:%S')]. *)
Definition strftime_ymd_hms (t : datetime) : string :=
  strftime_ymd (dt_date t) +:+ " " +:+ zero_pad 2 (hour t) +:+ ":" +:+
  zero_pad 2 (minute t) +:+ ":" +:+ zero_pad 2 (second t).

(** ** Python values and the dictionaries of the program *)

Inductive value :=
| VNone
| VInt (z : Z)
| VStr (s : string).

#[global] Instance value_eq_dec : EqDecision value.
Proof. solve_decision. Defined.

(** [None] or a [str], as stored in a selection slot. *)
Definition opt_value (o : option string) : value := from_option VStr VNone o.

(** [bool(x)] for [x] that is [None] or a [str]. *)
Definition truthy (o : option string) : bool :=
  match o with
  | None => false
  | Some s => negb (String.eqb s "")
  end.

(** A row of the roster, as [load_players] builds it. *)
Record Player := mk_player {
  name : string;
  pos_primary : string;
  pos_secondary : string;
  team_primary : string;
  team_secondary : string;
}.

(** The dict [create_match] returns. *)
Record Match := mk_match {
  match_id : string;
  match_date : string;
  team_number : string;
  opponent : string;
}.

(** An event: [build_event] sets six keys, [make_meta_event] nine. *)
Abbreviation Event := (gmap string value).

(** ** stats_engine.py *)

Definition STAT_TYPES : list string :=
  ["Mål"; "Assist"; "Frikast"; "Redning"; "Gult kort"; "2 min"; "Rødt kort"].

Definition create_match_id (d : date) (team : string) (opp : string) : string :=
  let opp_clean := py_replace " " "_" (py_strip opp) in
  strftime_ymd d +:+ "_H" +:+ team +:+ "_" +:+ opp_clean.

Definition create_match (d : date) (team : string) (opp : string) : Match :=
  let mid := create_match_id d team opp in
  {| match_id := mid;
     match_date := strftime_ymd d;
     team_number := team;
     opponent := py_strip opp |}.

(** [build_event], given the reading [now] of [datetime.now()]. *)
Definition build_event_at (now : datetime) (player : Player)
    (event_type : value) (mid : string) : Event :=
  <["timestamp" := VStr (strftime_ymd_hms now)]>
  (<["match_id" := VStr mid]>
  (<["player" := VStr (name player)]>
  (<["event" := event_type]>
  (<["pos_primary" := VStr (pos_primary player)]>
  (<["team_primary" := VStr (team_primary player)]> ∅))))).

(** ** The world the program runs in *)

(** The keys of [st.session_state] the program uses. *)
Record Session := mk_session {
  wizard_step : Z;
  current_match : option Match;
  match_players : list Player;
  events : list Event;
  selected_event : option string;
  selected_player : option string;
  current_half : Z;
}.

Abbreviation row := (list value).

Inductive exn :=
| TypeError
| ValueError
| KeyError
| FileNotFoundError
| APIError.


(** What the spreadsheet holds: the rows of the first worksheet of the stats
    file (header row first) and the rows of its 'Matches' tab, when there is
    one. Cells are kept as they were sent. *)
Record Sheets := mk_sheets {
  stats_sheet : list row;
  matches_sheet : option (list row);
}.

(** A worksheet handle of the stats file: its first sheet or the 'Matches'
    tab. *)
Inductive worksheet := Sheet1 | MatchesTab.

(** Requests to the outside: the configuration source ([st.secrets] or
    config.json), the credential service and the spreadsheet API. *)
Inductive api_call :=
| ReadConfig
| Authorize
| OpenByKey (key : string)
| GetSheet1
| GetWorksheet (title : string)
| AddWorksheet (title : string)
| RowValues (ws : worksheet) (n : nat)
| UpdateRange (ws : worksheet) (range : string) (rows : list row)
| AppendRow (ws : worksheet) (r : row)
| AppendRows (ws : worksheet) (rows : list row).

(** Results memoized by [lru_cache(maxsize=1)]. *)
Record Caches := mk_caches {
  config_cache : option (gmap string string);
  client_cache : bool;
  spreadsheet_cache : bool;
}.

Record World := mk_world {
  session : Session;
  sheets : Sheets;
  (** requests issued so far, oldest first *)
  api_log : list api_call;
  (** fate of the requests to come: [Some e] makes the next one raise [e] *)
  faults : list (option exn);
  caches : Caches;
  (** the configuration the deployment provides *)
  config_source : gmap string string;
  (** successive readings of the wall clock, and how many were taken *)
  clock : nat → datetime;
  clock_reads : nat;
  (** texts shown through [st.warning] *)
  warnings : list string;
}.

Definition with_session (f : Session → Session) (w : World) : World :=
  mk_world (f (session w)) (sheets w) (api_log w) (faults w) (caches w)
           (config_source w) (clock w) (clock_reads w) (warnings w).

Definition with_sheets (f : Sheets → Sheets) (w : World) : World :=
  mk_world (session w) (f (sheets w)) (api_log w) (faults w) (caches w)
           (config_source w) (clock w) (clock_reads w) (warnings w).

Definition with_caches (f : Caches → Caches) (w : World) : World :=
  mk_world (session w) (sheets w) (api_log w) (faults w) (f (caches w))
           (config_source w) (clock w) (clock_reads w) (warnings w).

(** How a piece of the script ends: it returns, it asks for a rerun
    ([st.rerun()], which unwinds the script run), or it raises. *)
Inductive outcome (A : Type) :=
| Ret (a : A)
| Rerun
| Raise (e : exn).
Arguments Ret {A} a.
Arguments Rerun {A}.
Arguments Raise {A} e.

#[global] Instance outcome_ret : MRet outcome := λ A a, Ret a.

#[global] Instance outcome_bind : MBind outcome := λ A B k o,
  match o with
  | Ret a => k a
  | Rerun => Rerun
  | Raise e => Raise e
  end.

Definition M (A : Type) : Type := World → outcome A * World.

Definition raise {A} (e : exn) : M A := λ w, (Raise e, w).
Definition st_rerun {A} : M A := λ w, (Rerun, w).

#[global] Instance M_ret : MRet M := λ A a w, (Ret a, w).

(** Sequencing: a rerun request or an exception skips the rest, and the
    world is the one reached when it happened. *)
#[global] Instance M_bind : MBind M := λ A B k m w,
  match m w with
  | (Ret a, w') => k a w'
  | (Rerun, w') => (Rerun, w')
  | (Raise e, w') => (Raise e, w')
  end.

(** Code that touches nothing of the world, run in it. *)
Definition lift {A} (o : outcome A) : M A := λ w, (o, w).

Definition get_session : M Session := λ w, (Ret (session w), w).
Definition modify_session (f : Session → Session) : M unit :=
  λ w, (Ret (), with_session f w).
Definition when (b : bool) (m : M unit) : M unit := if b then m else mret ().

(** [st.warning(text)] *)
Definition st_warning (text : string) : M unit :=
  λ w, (Ret (),
        mk_world (session w) (sheets w) (api_log w) (faults w) (caches w)
                 (config_source w) (clock w) (clock_reads w) (warnings w ++ [text])).

(** [datetime.now()] and [pd.Timestamp.now()] *)
Definition now : M datetime :=
  λ w, (Ret (clock w (clock_reads w)),
        mk_world (session w) (sheets w) (api_log w) (faults w) (caches w)
                 (config_source w) (clock w) (S (clock_reads w)) (warnings w)).

(** One request to the outside: it is logged and takes its fate from the
    fault schedule; when that says so it raises, without effect on the far
    side. *)
Definition request (c : api_call) : M unit :=
  λ w, let w' := mk_world (session w) (sheets w) (api_log w ++ [c]) (tail (faults w))
                          (caches w) (config_source w) (clock w) (clock_reads w)
                          (warnings w) in
       match faults w with
       | Some e :: _ => (Raise e, w')
       | _ => (Ret (), w')
       end.

(** Setters of the session keys. *)
Definition set_wizard_step (v : Z) (s : Session) : Session :=
  mk_session v (current_match s) (match_players s) (events s)
             (selected_event s) (selected_player s) (current_half s).
Definition set_current_match (v : option Match) (s : Session) : Session :=
  mk_session (wizard_step s) v (match_players s) (events s)
             (selected_event s) (selected_player s) (current_half s).
Definition set_match_players (v : list Player) (s : Session) : Session :=
  mk_session (wizard_step s) (current_match s) v (events s)
             (selected_event s) (selected_player s) (current_half s).
Definition set_events (v : list Event) (s : Session) : Session :=
  mk_session (wizard_step s) (current_match s) (match_players s) v
             (selected_event s) (selected_player s) (current_half s).
Definition set_selected_event (v : option string) (s : Session) : Session :=
  mk_session (wizard_step s) (current_match s) (match_players s) (events s)
             v (selected_player s) (current_half s).
Definition set_selected_player (v : option string) (s : Session) : Session :=
  mk_session (wizard_step s) (current_match s) (match_players s) (events s)
             (selected_event s) v (current_half s).
Definition set_current_half (v : Z) (s : Session) : Session :=
  mk_session (wizard_step s) (current_match s) (match_players s) (events s)
             (selected_event s) (selected_player s) v.

(** [build_event] of stats_engine.py. *)
Definition build_event (player : Player) (event_type : value) (mid : string)
    : M Event :=
  t ← now;
  mret (build_event_at t player event_type mid).

Definition get_sheets : M Sheets := λ w, (Ret (sheets w), w).
Definition get_caches : M Caches := λ w, (Ret (caches w), w).
Definition get_config_source : M (gmap string string) :=
  λ w, (Ret (config_source w), w).
Definition modify_sheets (f : Sheets → Sheets) : M unit :=
  λ w, (Ret (), with_sheets f w).
Definition modify_caches (f : Caches → Caches) : M unit :=
  λ w, (Ret (), with_caches f w).

(** [d[k]] on a configuration dict. *)
Definition subscript (d : gmap string string) (k : string) : M string :=
  match d !! k with
  | Some v => mret v
  | None => raise KeyError
  end.

(** ** google_io.py *)

Definition load_config : M (gmap string string) :=
  c ← get_caches;
  match config_cache c with
  | Some cfg => mret cfg
  | None =>
      request ReadConfig;;
      cfg ← get_config_source;
      modify_caches (λ c, mk_caches (Some cfg) (client_cache c) (spreadsheet_cache c));;
      mret cfg
  end.

Definition get_gsheet_client : M unit :=
  c ← get_caches;
  if client_cache c then mret ()
  else
    load_config;;
    request Authorize;;
    modify_caches (λ c, mk_caches (config_cache c) true (spreadsheet_cache c)).

Definition _get_stats_spreadsheet : M unit :=
  c ← get_caches;
  if spreadsheet_cache c then mret ()
  else
    cfg ← load_config;
    get_gsheet_client;;
    key ← subscript cfg "stats_sheet_id";
    request (OpenByKey key);;
    modify_caches (λ c, mk_caches (config_cache c) (client_cache c) true).

Definition ws_rows (ws : worksheet) (sh : Sheets) : list row :=
  match ws with
  | Sheet1 => stats_sheet sh
  | MatchesTab => default [] (matches_sheet sh)
  end.

Definition ws_put (ws : worksheet) (rows : list row) (sh : Sheets) : Sheets :=
  match ws with
  | Sheet1 => mk_sheets rows (matches_sheet sh)
  | MatchesTab => mk_sheets (stats_sheet sh) (Some rows)
  end.

(** [ws.row_values(n)], rows counted from 1. *)
Definition ws_row_values (ws : worksheet) (n : nat) : M row :=
  request (RowValues ws n);;
  sh ← get_sheets;
  mret (default [] (ws_rows ws sh !! (n - 1))).

(** [ws.update(range, [vals])] for a range that starts at A1 and lies in
    row 1: the leading cells of the first row are overwritten. *)
Definition ws_update_row1 (ws : worksheet) (range : string) (vals : row) : M unit :=
  request (UpdateRange ws range [vals]);;
  modify_sheets (λ sh,
    match ws_rows ws sh with
    | [] => ws_put ws [vals] sh
    | r :: rest => ws_put ws ((vals ++ drop (length vals) r) :: rest) sh
    end).

(** [ws.append_row(r, ...)] *)
Definition ws_append_row (ws : worksheet) (r : row) : M unit :=
  request (AppendRow ws r);;
  modify_sheets (λ sh, ws_put ws (ws_rows ws sh ++ [r]) sh).

(** [ws.append_rows(rows, ...)] *)
Definition ws_append_rows (ws : worksheet) (rows : list row) : M unit :=
  request (AppendRows ws rows);;
  modify_sheets (λ sh, ws_put ws (ws_rows ws sh ++ rows) sh).

Definition expected_header : row :=
  VStr <$> ["Timestamp"; "MatchID"; "Half"; "Player"; "Event"; "Position";
            "Team"; "Delta"; "MetaValue"].

Definition get_stats_worksheet : M worksheet :=
  _get_stats_spreadsheet;;
  request GetSheet1;;
  let ws := Sheet1 in
  header ← ws_row_values ws 1;
  let expected := expected_header in
  let starts_right := bool_decide (take 2 header = [VStr "Timestamp"; VStr "MatchID"]) in
  let empty := bool_decide (header = []) in
  when (empty || negb starts_right || (length header <? 7)%nat)
       (ws_update_row1 ws "A1:I1" expected);;
  when (negb empty && starts_right && (length header <? length expected)%nat)
       (ws_update_row1 ws "A1:I1" expected);;
  mret ws.

Section Program.

(** [int(s)] for a [str] [s]: the integer it spells, or [None] where
    Python raises [ValueError]. It is left open: the events the program
    builds keep an [int] under "delta", or nothing. *)
Variable int_of_str : string → option Z.

Definition py_int (v : value) : outcome Z :=
  match v with
  | VInt z => Ret z
  | VStr s =>
      match int_of_str s with
      | Some z => Ret z
      | None => Raise ValueError
      end
  | VNone => Raise TypeError
  end.

Definition _event_to_row (event : Event) : outcome row :=
  let ts := default (VStr "") (event !! "timestamp") in
  let mid := default (VStr "") (event !! "match_id") in
  let half := default (VStr "") (event !! "half") in
  let player := default (VStr "") (event !! "player") in
  let ev_name := default (VStr "") (event !! "event") in
  let pos := default (VStr "") (event !! "pos_primary") in
  let team := default (VStr "") (event !! "team_primary") in
  delta ← py_int (default (VInt 1) (event !! "delta"));
  let meta := default (VStr "") (event !! "meta_value") in
  mret [ts; mid; half; player; ev_name; pos; team; VInt delta; meta].

Definition write_stats_row (event : Event) : M unit :=
  ws ← get_stats_worksheet;
  r ← lift (_event_to_row event);
  ws_append_row ws r.

Definition write_stats_rows (evs : list Event) : M unit :=
  match evs with
  | [] => mret ()
  | _ =>
      ws ← get_stats_worksheet;
      rows ← lift (mapM _event_to_row evs);
      ws_append_rows ws rows
  end.

Definition get_matches_worksheet : M worksheet :=
  _get_stats_spreadsheet;;
  request (GetWorksheet "Matches");;
  sh ← get_sheets;
  match matches_sheet sh with
  | Some _ => mret MatchesTab
  | None =>
      request (AddWorksheet "Matches");;
      modify_sheets (ws_put MatchesTab []);;
      ws_update_row1 MatchesTab "A1:D1"
        (VStr <$> ["MatchID"; "Date"; "Team"; "Opponent"]);;
      mret MatchesTab
  end.

Definition append_match_record (m : Match) : M unit :=
  ws ← get_matches_worksheet;
  ws_append_row ws
    [VStr (match_id m); VStr (match_date m); VStr (team_number m);
     VStr (opponent m)].

(** ** ui_app.py *)

Definition EVENT_TYPES : list (string * string) :=
  [("Mål", "M"); ("Assist", "A"); ("Frikast", "F"); ("Redning", "R");
   ("Gult kort", "G"); ("2 min", "2"); ("Rødt kort", "X")].

(** The dict [defaults]. The script builds it anew at the top of every run,
    so its two lists are empty whenever they are read. *)
Definition defaults : Session :=
  {| wizard_step := 1;
     current_match := None;
     match_players := [];
     events := [];
     selected_event := None;
     selected_player := None;
     current_half := 1 |}.

Inductive session_key :=
| K_wizard_step
| K_current_match
| K_match_players
| K_events
| K_selected_event
| K_selected_player
| K_current_half.

(** The keys of [defaults], in the order [for k in defaults] visits them. *)
Definition default_keys : list session_key :=
  [K_wizard_step; K_current_match; K_match_players; K_events;
   K_selected_event; K_selected_player; K_current_half].

(** [st.session_state[k] = defaults[k]] *)
Definition assign_default (k : session_key) (s : Session) : Session :=
  match k with
  | K_wizard_step => set_wizard_step (wizard_step defaults) s
  | K_current_match => set_current_match (current_match defaults) s
  | K_match_players => set_match_players (match_players defaults) s
  | K_events => set_events (events defaults) s
  | K_selected_event => set_selected_event (selected_event defaults) s
  | K_selected_player => set_selected_player (selected_player defaults) s
  | K_current_half => set_current_half (current_half defaults) s
  end.

Definition find_player (players : list Player) (nm : option string)
    : option Player :=
  if negb (truthy nm) then None
  else head (filter (λ p, Some (name p) = nm) players).

Definition make_meta_event (mid : string) (event : string) (v : value)
    : M Event :=
  t ← now;
  s ← get_session;
  mret (<["timestamp" := VStr (strftime_ymd_hms t)]>
        (<["match_id" := VStr mid]>
        (<["half" := VInt (current_half s)]>
        (<["player" := VStr ""]>
        (<["event" := VStr event]>
        (<["pos_primary" := VStr ""]>
        (<["team_primary" := VStr ""]>
        (<["delta" := VInt 0]>
        (<["meta_value" := v]> ∅))))))))).

(** [st.selectbox(label, options)]: the option chosen, the first one
    unless the user picks another; [None] when there is none to choose. *)
Definition st_selectbox (options : list string) (choice : nat) : value :=
  match options with
  | [] => VNone
  | o :: _ => VStr (default o (options !! choice))
  end.

(** [f"{ours}-{opp}"] *)
Definition score_text (ours opp : N) : string :=
  pretty ours +:+ "-" +:+ pretty opp.

(** What the user entered in the half-time dialog, and whether "Gem" was
    pressed. *)
Record half_form := mk_half_form {
  hf_ours : N;
  hf_opp : N;
  hf_save : bool;
}.

(** The same for the end-of-match dialog and "Gem og afslut kamp". *)
Record end_form := mk_end_form {
  ef_ours : N;
  ef_opp : N;
  ef_mvp : nat;
  ef_comment : string;
  ef_save : bool;
}.

Definition half_dialog (mid : string) (f : half_form) : M unit :=
  let ours := hf_ours f in
  let opp := hf_opp f in
  if hf_save f then
    ev ← make_meta_event mid "HALVLEG_RESULTAT" (VStr (score_text ours opp));
    modify_session (λ s, set_events (events s ++ [ev]) s);;
    st_rerun
  else mret ().

Definition end_dialog (mid : string) (players : list Player) (f : end_form)
    : M unit :=
  let ours := ef_ours f in
  let opp := ef_opp f in
  let mvp := st_selectbox (name <$> players) (ef_mvp f) in
  let comment := ef_comment f in
  if ef_save f then
    e1 ← make_meta_event mid "SLUT_RESULTAT" (VStr (score_text ours opp));
    e2 ← make_meta_event mid "KAMPENS_SPILLER" mvp;
    e3 ← make_meta_event mid "KOMMENTAR" (VStr (py_strip comment));
    modify_session (λ s, set_events (events s ++ [e1; e2; e3]) s);;
    s ← get_session;
    write_stats_rows (events s);;
    modify_session (set_wizard_step 4);;
    st_rerun
  else mret ().

(** Step 1: the three inputs and whether "Opret kamp" was pressed. *)
Definition step_create_match (team : string) (d : date) (opp : string)
    (pressed : bool) : M unit :=
  if pressed then
    let m := create_match d team opp in
    append_match_record m;;
    modify_session (λ s,
      set_current_half 1
        (set_selected_player None
          (set_selected_event None
            (set_events []
              (set_wizard_step 2
                (set_current_match (Some m) s))))));;
    st_rerun
  else mret ().

(** The options offered by the multiselect of step 2. *)
Definition filtered_players (team_filter pos_filter : string)
    (players : list Player) : list Player :=
  let filtered := players in
  let filtered :=
    if bool_decide (team_filter ≠ "Alle")
    then filter (λ p, team_primary p = team_filter) filtered else filtered in
  if bool_decide (pos_filter ≠ "Alle")
  then filter (λ p, pos_primary p = pos_filter) filtered else filtered.

(** Step 2: [selected] is the value of the multiselect, [pressed] tells
    whether "Start kamp" was. *)
Definition step_select_players (players : list Player)
    (selected : list string) (pressed : bool) : M unit :=
  if pressed then
    match selected with
    | [] => st_warning "Vælg mindst én spiller."
    | _ =>
        modify_session
          (set_match_players (filter (λ p, name p ∈ selected) players));;
        modify_session (set_wizard_step 3);;
        st_rerun
    end
  else mret ().

(** The buttons of step 3; the two dialog buttons come with what the user
    then does in the dialog, the type and player buttons with their
    position in the column. *)
Inductive record_click :=
| NoClick
| BtnHalf1
| BtnHalf2
| BtnHalfDialog (f : half_form)
| BtnRegister
| BtnEndDialog (f : end_form)
| BtnType (i : nat)
| BtnPlayer (i : nat).

(** [match["match_id"]], where [match] may be [None]. *)
Definition match_id_of (m : option Match) : M string :=
  match m with
  | Some m => mret (match_id m)
  | None => raise TypeError
  end.

Definition step_record (click : record_click) : M unit :=
  s0 ← get_session;
  let match_ := current_match s0 in
  let players := match_players s0 in
  match click with
  | NoClick => mret ()
  | BtnHalf1 => modify_session (set_current_half 1)
  | BtnHalf2 => modify_session (set_current_half 2)
  | BtnHalfDialog f =>
      mid ← match_id_of match_;
      half_dialog mid f
  | BtnRegister =>
      s ← get_session;
      let can := truthy (selected_event s) && truthy (selected_player s) in
      if can then
        match find_player players (selected_player s) with
        | None =>
            st_warning "Vælg spiller igen.";;
            modify_session (set_selected_player None);;
            st_rerun
        | Some p =>
            mid ← match_id_of match_;
            ev ← build_event p (opt_value (selected_event s)) mid;
            s ← get_session;
            let ev := <["half" := VInt (current_half s)]> ev in
            modify_session (λ s, set_events (events s ++ [ev]) s);;
            modify_session (set_selected_event None);;
            modify_session (set_selected_player None);;
            st_rerun
        end
      else mret ()
  | BtnEndDialog f =>
      mid ← match_id_of match_;
      end_dialog mid players f
  | BtnType i =>
      match EVENT_TYPES !! i with
      | Some (label, _) => modify_session (set_selected_event (Some label))
      | None => mret ()
      end
  | BtnPlayer i =>
      match players !! i with
      | Some p => modify_session (set_selected_player (Some (name p)))
      | None => mret ()
      end
  end.

(** Step 4: [pressed] tells whether "Start ny kamp" was. *)
Definition step_summary (pressed : bool) : M unit :=
  if pressed then
    mapM (λ k, modify_session (assign_default k)) default_keys;;
    st_rerun
  else mret ().

(** What the user does on the page a script run acts on. *)
Inductive ui_input :=
| OnCreateMatch (team : string) (d : date) (opp : string) (pressed : bool)
| OnSelectPlayers (selected : list string) (pressed : bool)
| OnRecord (click : record_click)
| OnSummary (pressed : bool).

(** [main], given the roster [get_cached_players()] returned. Input meant
    for another page than the one shown finds no widget to act on. *)
Definition main (players : list Player) (ui : ui_input) : M unit :=
  s ← get_session;
  let step := wizard_step s in
  if bool_decide (step = 1%Z) then
    match ui with
    | OnCreateMatch team d opp pressed => step_create_match team d opp pressed
    | _ => step_create_match "1" (mk_date 0 0 0) "" false
    end
  else if bool_decide (step = 2%Z) then
    match ui with
    | OnSelectPlayers selected pressed => step_select_players players selected pressed
    | _ => step_select_players players [] false
    end
  else if bool_decide (step = 3%Z) then
    match ui with
    | OnRecord click => step_record click
    | _ => step_record NoClick
    end
  else
    match ui with
    | OnSummary pressed => step_summary pressed
    | _ => step_summary false
    end.

(** One script run: whatever its outcome, the world it leaves is the one
    the next run starts from. *)
Definition interact (w : World) (i : list Player * ui_input) : World :=
  (main i.1 i.2 w).2.

(** A session: script runs one after the other. *)
Definition interactions (runs : list (list Player * ui_input)) (w : World)
    : World :=
  foldl interact w runs.

(** ** Notions used to state the properties *)

(** The identifier as the specification words it: every space of the
    trimmed opponent becomes an underscore, character by character. *)
Fixpoint underscore_spaces (s : string) : string :=
  match s with
  | EmptyString => EmptyString
  | String c s' =>
      String (if Ascii.eqb c " " then "_"%char else c) (underscore_spaces s')
  end.

Definition spec_match_id (d : date) (team opp : string) : string :=
  strftime_ymd d +:+ "_H" +:+ team +:+ "_" +:+ underscore_spaces (py_strip opp).

Fixpoint remove_spaces (s : string) : string :=
  match s with
  | EmptyString => EmptyString
  | String c s' =>
      if Ascii.eqb c " " then remove_spaces s' else String c (remove_spaces s')
  end.

(** Two opponents differ only in internal spacing: both are trimmed, they
    are different, and they are the same once their spaces are taken out. *)
Definition differ_only_in_internal_spacing (o1 o2 : string) : Prop :=
  o1 ≠ o2 ∧ py_strip o1 = o1 ∧ py_strip o2 = o2 ∧
  remove_spaces o1 = remove_spaces o2.

(** The [make_meta_event] of a given clock reading and half. *)
Definition meta_event_at (t : datetime) (half : Z) (mid event : string)
    (v : value) : Event :=
  <["timestamp" := VStr (strftime_ymd_hms t)]>
  (<["match_id" := VStr mid]>
  (<["half" := VInt half]>
  (<["player" := VStr ""]>
  (<["event" := VStr event]>
  (<["pos_primary" := VStr ""]>
  (<["team_primary" := VStr ""]>
  (<["delta" := VInt 0]>
  (<["meta_value" := v]> ∅)))))))).

(** A meta event of kind [event] with payload [v]. *)
Definition is_meta_event (e : Event) (event : string) (v : value) : Prop :=
  e !! "event" = Some (VStr event) ∧ e !! "delta" = Some (VInt 0) ∧
  e !! "player" = Some (VStr "") ∧ e !! "pos_primary" = Some (VStr "") ∧
  e !! "team_primary" = Some (VStr "") ∧ e !! "meta_value" = Some v.

Definition is_append (c : api_call) : bool :=
  match c with
  | AppendRow _ _ | AppendRows _ _ => true
  | _ => false
  end.

(** The append requests among [l]. *)
Definition appends (l : list api_call) : list api_call :=
  filter (λ c, is_append c = true) l.

(** The requests issued between two worlds of one run. *)
Definition new_requests (w w' : World) : list api_call :=
  drop (length (api_log w)) (api_log w').

(** A press that starts a match over: "Opret kamp" or "Start ny kamp". *)
Definition is_reset (ui : ui_input) : bool :=
  match ui with
  | OnCreateMatch _ _ _ true | OnSummary true => true
  | _ => false
  end.

(** [m] leaves the part [proj] of the world as it found it, however it
    ends. *)
Definition keeps {X A} (proj : World → X) (m : M A) : Prop :=
  ∀ w, proj (m w).2 = proj w.

(** [m] only adds to the request log, and every request it adds
    satisfies [Φ]. *)
Definition requests_only {A} (Φ : api_call → Prop) (m : M A) : Prop :=
  ∀ w, ∃ l, api_log (m w).2 = api_log w ++ l ∧ Forall Φ l.

Definition not_append (c : api_call) : Prop := is_append c = false.

(** [m] never asks for a rerun. *)
Definition no_rerun {A} (m : M A) : Prop := ∀ w, (m w).1 ≠ Rerun.

(** [m] changes the event list by adding at its end, if at all. *)
Definition extends_events {A} (m : M A) : Prop :=
  ∀ w, events (session w) `prefix_of` events (session (m w).2).

(** Past the first step a match is current. *)
Definition match_known (s : Session) : Prop :=
  wizard_step s = 1%Z ∨ is_Some (current_match s).

(** The three meta events the end-of-match dialog builds in world [w]. *)
Definition end_metas (mid : string) (players : list Player) (f : end_form)
    (w : World) : list Event :=
  let h := current_half (session w) in
  let n := clock_reads w in
  [meta_event_at (clock w n) h mid "SLUT_RESULTAT"
     (VStr (score_text (ef_ours f) (ef_opp f)));
   meta_event_at (clock w (S n)) h mid "KAMPENS_SPILLER"
     (st_selectbox (name <$> players) (ef_mvp f));
   meta_event_at (clock w (S (S n))) h mid "KOMMENTAR"
     (VStr (py_strip (ef_comment f)))].

(** The world in which the end-of-match dialog starts its batch write:
    three clock readings later, the meta events appended. *)
Definition before_flush (mid : string) (players : list Player) (f : end_form)
    (w : World) : World :=
  with_session
    (λ s, set_events (events s ++ end_metas mid players f w) s)
    (now (now (now w).2).2).2.

(** The event a registration appends in world [w]. *)
Definition registered_event (p : Player) (m : Match) (w : World) : Event :=
  <["half" := VInt (current_half (session w))]>
    (build_event_at (clock w (clock_reads w)) p
       (opt_value (selected_event (session w))) (match_id m)).

(** Whether the Register button is enabled. *)
Definition can_register (s : Session) : bool :=
  truthy (selected_event s) && truthy (selected_player s).

(** ** Sample data *)

Definition int_never : string → option Z := λ _, None.

Definition anna : Player := mk_player "Anna" "VB" "HB" "1" "2".

Definition falcon : Match := create_match (mk_date 2024 3 1) "1" "FC Falcon".

Definition sample_clock (n : nat) : datetime :=
  mk_datetime (mk_date 2024 3 1) 18 30 (N.of_nat n).

(** A session in the Record step with one goal of Anna's registered. *)
Definition recording : Session :=
  {| wizard_step := 3;
     current_match := Some falcon;
     match_players := [anna];
     events := [<["half" := VInt 1]>
                  (build_event_at (sample_clock 0) anna (VStr "Mål") (match_id falcon))];
     selected_event := None;
     selected_player := None;
     current_half := 1 |}.

(** The same with both slots armed, for Anna. *)
Definition armed : Session :=
  set_selected_player (Some "Anna") (set_selected_event (Some "Mål") recording).

(** A session in the SelectPlayers step. *)
Definition choosing : Session :=
  set_current_match (Some falcon) (set_wizard_step 2 defaults).

Definition sample_world (s : Session) (fs : list (option exn)) : World :=
  {| session := s;
     sheets := mk_sheets [expected_header] None;
     api_log := [];
     faults := fs;
     caches := mk_caches None false false;
     config_source := {[ "stats_sheet_id" := "stats" ]};
     clock := sample_clock;
     clock_reads := 1;
     warnings := [] |}.

Definition sample_end_form : end_form :=
  {| ef_ours := 20; ef_opp := 18; ef_mvp := 0; ef_comment := "Godt kamp";
     ef_save := true |}.

Definition sample_half_form : half_form :=
  {| hf_ours := 11; hf_opp := 9; hf_save := true |}.

(** Script runs of a match: players confirmed, a goal of Anna's armed and
    registered, the second half switched to, the half-time score saved. *)
Definition sample_runs : list (list Player * ui_input) :=
  [([anna], OnSelectPlayers ["Anna"] true);
   ([anna], OnRecord (BtnType 0));
   ([anna], OnRecord (BtnPlayer 0));
   ([anna], OnRecord BtnRegister);
   ([anna], OnRecord BtnHalf2);
   ([anna], OnRecord (BtnHalfDialog sample_half_form));
   ([anna], OnRecord (BtnType 1));
   ([anna], OnRecord (BtnPlayer 0))].

(** ** google_io.py: the readers *)

(** [r[i]] where the code has made sure that [len(r) > i]. *)
Definition cell (r : list string) (i : nat) : string := default "" (r !! i).

(** [r[i] if len(r) > i else ""] *)
Definition cell_or_empty (r : list string) (i : nat) : string :=
  if (i <? length r)%nat then cell r i else "".

(** The body of [load_players] once [rows = sheet.get_all_values()] is
    there: the rows of the roster sheet, each a list of cell texts. *)
Definition load_players_from (rows : list (list string)) : list Player :=
  let data_rows := drop 5 rows in
  foldl (λ players r,
           if (length r <? 5)%nat then players
           else if String.eqb (cell r 1) "" then players
           else players ++
                  [{| name := cell r 1;
                      pos_primary := cell_or_empty r 2;
                      pos_secondary := cell_or_empty r 3;
                      team_primary := cell_or_empty r 4;
                      team_secondary := cell_or_empty r 5 |}])
        [] data_rows.

(** The body of [get_all_matches] once [rows = ws.get_all_values()] is
    there. *)
Definition get_all_matches_from (rows : list (list string)) : list Match :=
  if (length rows <=? 1)%nat then []
  else
    let data_rows := drop 1 rows in
    foldl (λ matches r,
             if bool_decide (r = []) || String.eqb (cell r 0) "" then matches
             else matches ++
                    [{| match_id := cell r 0;
                        match_date := cell_or_empty r 1;
                        team_number := cell_or_empty r 2;
                        opponent := cell_or_empty r 3 |}])
          [] data_rows.

(** What [int(float(s))] does with a text [s]: an integer, a [ValueError]
    (no number, or NaN), or an [OverflowError] (an infinity). *)
Inductive float_int :=
| FloatInt (z : Z)
| FloatValueError
| FloatOverflow.

(** It is left open, as [int_of_str] is. *)
Variable int_of_float_str : string → float_int.

(** The delta of a row of the stats sheet; [None] stands for the
    [OverflowError] that [get_stats_for_match] does not catch. *)
Definition row_delta (r : list string) : option Z :=
  let delta := 1%Z in
  if (7 <? length r)%nat && negb (String.eqb (py_strip (cell r 7)) "") then
    match int_of_float_str (cell r 7) with
    | FloatInt z => Some z
    | FloatValueError => Some 1%Z
    | FloatOverflow => None
    end
  else Some delta.

(** The loop of [get_stats_for_match] over the data rows. *)
Fixpoint stats_loop (mid : string) (data_rows : list (list string))
    (evs : list Event) : option (list Event) :=
  match data_rows with
  | [] => Some evs
  | r :: rest =>
      if (length r <? 2)%nat then stats_loop mid rest evs
      else if negb (String.eqb (cell r 1) mid) then stats_loop mid rest evs
      else
        let half := cell_or_empty r 2 in
        let player := cell_or_empty r 3 in
        let ev_name := cell_or_empty r 4 in
        let pos := cell_or_empty r 5 in
        let team := cell_or_empty r 6 in
        match row_delta r with
        | None => None
        | Some delta =>
            let meta := cell_or_empty r 8 in
            stats_loop mid rest
              (evs ++
                 [<["timestamp" := VStr (cell_or_empty r 0)]>
                  (<["match_id" := VStr mid]>
                  (<["half" := VStr half]>
                  (<["player" := VStr player]>
                  (<["event" := VStr ev_name]>
                  (<["pos_primary" := VStr pos]>
                  (<["team_primary" := VStr team]>
                  (<["delta" := VInt delta]>
                  (<["meta_value" := VStr meta]> ∅))))))))])
        end
  end.

(** The body of [get_stats_for_match] once [rows = ws.get_all_values()] is
    there. *)
Definition get_stats_for_match_from (mid : string) (rows : list (list string))
    : option (list Event) :=
  if (length rows <=? 1)%nat then Some []
  else stats_loop mid (drop 1 rows) [].

(** ** ui_app.py: the counters of the Record page *)

#[global] Instance value_countable : Countable value.
Proof.
  refine (inj_countable'
            (λ v, match v with
                  | VNone => inl ()
                  | VInt z => inr (inl z)
                  | VStr s => inr (inr s)
                  end)
            (λ x, match x with
                  | inl _ => VNone
                  | inr (inl z) => VInt z
                  | inr (inr s) => VStr s
                  end) _).
  by intros [].
Defined.

(** [bool(v)] *)
Definition value_truthy (v : value) : bool :=
  match v with
  | VNone => false
  | VInt z => negb (z =? 0)%Z
  | VStr s => negb (String.eqb s "")
  end.

(** The [defaultdict(int)] that [step_record] fills: one entry per pair of
    player and event type that occurs. [e["event"]] raises [KeyError] when
    the key is missing. *)
Fixpoint count_events (evs : list Event) (counts : gmap (value * value) nat)
    : outcome (gmap (value * value) nat) :=
  match evs with
  | [] => Ret counts
  | e :: rest =>
      if value_truthy (default VNone (e !! "player")) then
        match e !! "event" with
        | None => Raise KeyError
        | Some t =>
            let key := (default VNone (e !! "player"), t) in
            count_events rest (<[key := S (default 0 (counts !! key))]> counts)
        end
      else count_events rest counts
  end.

(** [counts[k]] on the [defaultdict]. *)
Definition count_of (counts : gmap (value * value) nat) (k : value * value)
    : nat :=
  default 0 (counts !! k).

(** [sep.join(l)] *)
Fixpoint py_join (sep : string) (l : list string) : string :=
  match l with
  | [] => ""
  | [x] => x
  | x :: rest => x +:+ sep +:+ py_join sep rest
  end.

(** The badge beside a player's button. *)
Definition badge (counts : gmap (value * value) nat) (nm : string) : string :=
  py_join " "
    ((λ lc : string * string,
        lc.2 +:+ ":" +:+ pretty (count_of counts (VStr nm, VStr lc.1)))
     <$> filter (λ lc : string * string,
                   0 < count_of counts (VStr nm, VStr lc.1)) EVENT_TYPES).

(** ** More notions used to state the properties *)

(** The moves of the wizard: it stays, goes one step on, or goes from the
    summary (any step but 1, 2 and 3) back to step 1. *)
Definition wizard_move (s s' : Session) : Prop :=
  let a := wizard_step s in
  let b := wizard_step s' in
  (b = a ∨ (a = 1 ∧ b = 2) ∨ (a = 2 ∧ b = 3) ∨ (a = 3 ∧ b = 4) ∨
   (a ≠ 1 ∧ a ≠ 2 ∧ a ≠ 3 ∧ b = 1))%Z.

(** The player slot is empty on the SelectPlayers page, and whenever it
    arms Register the lookup among the match players finds someone. *)
Definition lookup_ready (s : Session) : Prop :=
  (wizard_step s = 2%Z → selected_player s = None) ∧
  (truthy (selected_player s) = true →
   is_Some (find_player (match_players s) (selected_player s))).

(** An event whose "delta" is missing or an [int]. *)
Definition delta_typed (e : Event) : Prop :=
  e !! "delta" = None ∨ ∃ z, e !! "delta" = Some (VInt z).

(** An event as the wizard builds them: it names its type, and its "delta"
    is missing or an [int]. *)
Definition wizard_event (e : Event) : Prop :=
  is_Some (e !! "event") ∧ delta_typed e.

(** The events a player's counter counts. *)
Definition counted (p t : value) (e : Event) : Prop :=
  value_truthy p = true ∧ e !! "player" = Some p ∧ e !! "event" = Some t.

#[global] Instance counted_dec p t e : Decision (counted p t e).
Proof. unfold counted. apply _. Defined.

(** The cells [append_match_record] sends for a match. *)
Definition match_cells (m : Match) : list string :=
  [match_id m; match_date m; team_number m; opponent m].

(** A row as the sheet hands it back when it leaves out the empty cells at
    its end. *)
Fixpoint without_leading_empty (r : list string) : list string :=
  match r with
  | c :: r' => if String.eqb c "" then without_leading_empty r' else r
  | [] => []
  end.

Definition without_trailing_empty (r : list string) : list string :=
  reverse (without_leading_empty (reverse r)).

(** The player a row of the roster sheet stands for, if it stands for one. *)
Definition player_of_row (r : list string) : option Player :=
  if (length r <? 5)%nat then None
  else if String.eqb (cell r 1) "" then None
  else Some {| name := cell r 1;
               pos_primary := cell_or_empty r 2;
               pos_secondary := cell_or_empty r 3;
               team_primary := cell_or_empty r 4;
               team_secondary := cell_or_empty r 5 |}.

(** The match a row of the 'Matches' tab stands for, if it stands for one. *)
Definition match_of_row (r : list string) : option Match :=
  if bool_decide (r = []) || String.eqb (cell r 0) "" then None
  else Some {| match_id := cell r 0;
               match_date := cell_or_empty r 1;
               team_number := cell_or_empty r 2;
               opponent := cell_or_empty r 3 |}.

(** A row of the stats sheet that belongs to match [mid]. *)
Definition row_of_match (mid : string) (r : list string) : bool :=
  (2 <=? length r)%nat && String.eqb (cell r 1) mid.

(** The event read from a row of match [mid], once its delta is known. *)
Definition event_of_row (mid : string) (r : list string) (delta : Z) : Event :=
  <["timestamp" := VStr (cell_or_empty r 0)]>
  (<["match_id" := VStr mid]>
  (<["half" := VStr (cell_or_empty r 2)]>
  (<["player" := VStr (cell_or_empty r 3)]>
  (<["event" := VStr (cell_or_empty r 4)]>
  (<["pos_primary" := VStr (cell_or_empty r 5)]>
  (<["team_primary" := VStr (cell_or_empty r 6)]>
  (<["delta" := VInt delta]>
  (<["meta_value" := VStr (cell_or_empty r 8)]> ∅)))))))).

(** The nine keys of a full event. *)
Definition event_keys : gset string :=
  list_to_set ["timestamp"; "match_id"; "half"; "player"; "event";
               "pos_primary"; "team_primary"; "delta"; "meta_value"].

(** The rows of the stats sheet below the header. *)
Definition data_rows_of (sh : Sheets) : list row := drop 1 (stats_sheet sh).

Definition is_update (c : api_call) : bool :=
  match c with
  | UpdateRange _ _ _ => true
  | _ => false
  end.

(** The first row of the stats sheet is one [get_stats_worksheet] accepts. *)
Definition header_accepted (sh : Sheets) : Prop :=
  ∃ h rest, stats_sheet sh = h :: rest ∧
            take 2 h = [VStr "Timestamp"; VStr "MatchID"] ∧ 9 ≤ length h.

(** The header row of the 'Matches' tab. *)
Definition matches_header : row :=
  VStr <$> ["MatchID"; "Date"; "Team"; "Opponent"].

(** The rows of the 'Matches' tab as [append_match_record] finds them, once
    [get_matches_worksheet] has made sure that the tab is there. *)
Definition matches_rows_found (sh : Sheets) : list row :=
  match matches_sheet sh with
  | Some rows => rows
  | None => [matches_header]
  end.

(** What one press on the Record page can do to the session: the match and
    its players stay; the player slot keeps its value, is emptied, or takes
    the name of a match player; the wizard stays or goes to step 4; events
    with a typed delta are added at the end of the list. *)
Definition record_step (s s' : Session) : Prop :=
  current_match s' = current_match s ∧
  match_players s' = match_players s ∧
  (selected_player s' = selected_player s ∨ selected_player s' = None ∨
   ∃ p, p ∈ match_players s ∧ selected_player s' = Some (name p)) ∧
  (wizard_step s' = wizard_step s ∨
   (wizard_step s' = 4%Z ∧ selected_player s' = selected_player s)) ∧
  ∃ k, events s' = events s ++ k ∧ Forall wizard_event k.

(** What holds of every session that began with the defaults. *)
Definition session_ok (s : Session) : Prop :=
  (wizard_step s = 1 ∨ wizard_step s = 2 ∨ wizard_step s = 3 ∨
   wizard_step s = 4)%Z ∧
  lookup_ready s ∧
  Forall wizard_event (events s).

(** [m] does not forget that the stats spreadsheet was opened. *)
Definition cache_stays {A} (m : M A) : Prop :=
  ∀ w, spreadsheet_cache (caches w) = true →
       spreadsheet_cache (caches (m w).2) = true.

(** With no fault scheduled, [m] returns and leaves none scheduled. *)
Definition calm {A} (m : M A) : Prop :=
  ∀ w, faults w = [] → faults (m w).2 = [] ∧ ∃ a, (m w).1 = Ret a.

(** Past the first page the stats spreadsheet has been opened. *)
Definition sheet_known (w : World) : Prop :=
  wizard_step (session w) = 1%Z ∨ spreadsheet_cache (caches w) = true.


(** ** More sample data *)

(** An [int(float(s))] that knows three texts. *)
Definition float_sample (s : string) : float_int :=
  if String.eqb s "2" then FloatInt 2
  else if String.eqb s "-1.0" then FloatInt (-1)
  else if String.eqb s "inf" then FloatOverflow
  else FloatValueError.

Definition bo : Player := mk_player "Bo" "PL" "" "2" "".

(** What [get_all_values] may hand back for the stats sheet: the header,
    two rows of match M1, one of them short, and one of another match. *)
Definition sample_stats_rows : list (list string) :=
  [["Timestamp"; "MatchID"; "Half"; "Player"; "Event"; "PosPrimary";
    "TeamPrimary"; "Delta"; "MetaValue"];
   ["2024-03-01 18:30:00"; "M1"; "1"; "Anna"; "Mål"; "VB"; "1"; "2"; ""];
   ["2024-03-01 18:31:00"; "M2"; "1"; "Bo"; "Mål"; "PL"; "2"; "1"; ""];
   ["2024-03-01 18:32:00"; "M1"; "1"; "Anna"; "Assist"]].

(** A row whose delta reads as an infinity. *)
Definition sample_overflow_row : list string :=
  ["2024-03-01 18:33:00"; "M1"; "1"; "Anna"; "Mål"; "VB"; "1"; "inf"; ""].

(** A world at the start of a session, with no fault scheduled. *)
Definition fresh : World := sample_world defaults [].

(** A session from its first page on: the match created, then the runs of
    [sample_runs]. *)
Definition full_runs : list (list Player * ui_input) :=
  ([anna], OnCreateMatch "1" (mk_date 2024 3 1) "FC Falcon" true)
  :: sample_runs.

(** ** Strings *)

Lemma append_inj_r (p s t : string) : p +:+ s = p +:+ t → s = t.
Proof. induction p as [|c p IH]; simpl; [done | intros [= H]; auto]. Qed.

Lemma underscore_spaces_length (s : string) :
  String.length (underscore_spaces s) = String.length s.
Proof. induction s as [|c s IH]; simpl; [done | by rewrite IH]. Qed.

(** Replacing the one-character string " " is a character-wise map. *)
Lemma replace_space_underscore (s : string) :
  py_replace " " "_" s = underscore_spaces s.
Proof.
  unfold py_replace.
  induction s as [|c s IH]; [done|].
  cbn [replace_from underscore_spaces String.prefix String.length].
  destruct (ascii_dec " " c) as [<-|Hne].
  - assert (String.prefix "" s = true) as -> by (by destruct s).
    cbn. by rewrite IH.
  - destruct (Ascii.eqb_spec c " ") as [->|_]; [done|].
    by rewrite IH.
Qed.

Lemma create_match_id_unfold (d : date) (team opp : string) :
  create_match_id d team opp = spec_match_id d team opp.
Proof.
  unfold create_match_id, spec_match_id.
  by rewrite replace_space_underscore.
Qed.

Lemma create_match_id_same_iff (d : date) (team o1 o2 : string) :
  create_match_id d team o1 = create_match_id d team o2 ↔
  underscore_spaces (py_strip o1) = underscore_spaces (py_strip o2).
Proof.
  rewrite !create_match_id_unfold. unfold spec_match_id. split.
  - intros H. by do 4 apply append_inj_r in H.
  - by intros ->.
Qed.

(** The fuel of [strip_left] is enough: nothing is left to strip. *)
Lemma string_drop_length (n : nat) (s : string) :
  String.length (string_drop n s) = String.length s - n.
Proof.
  revert s. induction n as [|n IH]; intros [|c s]; simpl; auto with lia.
Qed.

Lemma prefix_length (p s : string) :
  String.prefix p s = true → (String.length p ≤ String.length s)%nat.
Proof.
  revert p. induction s as [|c s IH]; intros [|a p]; simpl; try done; try lia.
  destruct (ascii_dec a c); [|done]. intros H%IH. lia.
Qed.

Lemma drop_one_shorter (pats : list string) (s s' : string) :
  Forall (λ p, p ≠ "") pats → drop_one pats s = Some s' →
  (String.length s' < String.length s)%nat.
Proof.
  induction 1 as [|p pats Hp _ IH]; simpl; [done|].
  destruct (String.prefix p s) eqn:Hpre; [|done].
  intros [= <-]. rewrite string_drop_length.
  apply prefix_length in Hpre. destruct p; [done|]. simpl in *. lia.
Qed.

Lemma strip_left_done (pats : list string) (fuel : nat) (s : string) :
  Forall (λ p, p ≠ "") pats → (String.length s ≤ fuel)%nat →
  drop_one pats (strip_left pats fuel s) = None.
Proof.
  intros Hpats. revert s. induction fuel as [|fuel IH]; intros s Hlen; simpl.
  - destruct s; [|simpl in Hlen; lia].
    destruct (drop_one pats "") as [s'|] eqn:E; [|done].
    apply (drop_one_shorter _ _ _ Hpats) in E. simpl in E. lia.
  - destruct (drop_one pats s) as [s'|] eqn:E; [|done].
    apply IH. apply (drop_one_shorter _ _ _ Hpats) in E. lia.
Qed.

Lemma py_lstrip_done (s : string) : drop_one py_whitespace (py_lstrip s) = None.
Proof.
  apply strip_left_done; [|done].
  unfold py_whitespace. repeat (constructor; [done|]). constructor.
Qed.

(** ** The monad *)

Lemma bind_run {A B} (m : M A) (k : A → M B) (w : World) :
  (m ≫= k) w =
  match m w with
  | (Ret a, w') => k a w'
  | (Rerun, w') => (Rerun, w')
  | (Raise e, w') => (Raise e, w')
  end.
Proof. reflexivity. Qed.

Lemma keeps_bind {X A B} (proj : World → X) (m : M A) (k : A → M B) :
  keeps proj m → (∀ a, keeps proj (k a)) → keeps proj (m ≫= k).
Proof.
  intros Hm Hk w. rewrite bind_run. specialize (Hm w).
  destruct (m w) as [[a| |e] w']; simpl in *; [|done..].
  by rewrite Hk.
Qed.

Lemma keeps_ret {X A} (proj : World → X) (a : A) : keeps proj (mret a).
Proof. by intros w. Qed.

Lemma keeps_when {X} (proj : World → X) (b : bool) (m : M unit) :
  keeps proj m → keeps proj (when b m).
Proof. destruct b; [done | intros _; apply keeps_ret]. Qed.

Lemma keeps_lift {X A} (proj : World → X) (o : outcome A) : keeps proj (lift o).
Proof. by intros w. Qed.

Lemma requests_only_bind {A B} Φ (m : M A) (k : A → M B) :
  requests_only Φ m → (∀ a, requests_only Φ (k a)) → requests_only Φ (m ≫= k).
Proof.
  intros Hm Hk w. rewrite bind_run. destruct (Hm w) as (l & Hl & HΦ).
  destruct (m w) as [[a| |e] w']; simpl in *; [|by eauto..].
  destruct (Hk a w') as (l' & Hl' & HΦ').
  exists (l ++ l'). rewrite Hl', Hl, (assoc_L (++)). split; [done|].
  by apply Forall_app.
Qed.

Lemma requests_only_quiet {A} Φ (m : M A) :
  keeps api_log m → requests_only Φ m.
Proof. intros H w. exists []. by rewrite H, (right_id_L [] (++)). Qed.

Lemma requests_only_request Φ (c : api_call) : Φ c → requests_only Φ (request c).
Proof.
  intros Hc w. exists [c]. split; [|by constructor].
  unfold request. by destruct (faults w) as [|[e|] fs].
Qed.

Lemma requests_only_when Φ (b : bool) (m : M unit) :
  requests_only Φ m → requests_only Φ (when b m).
Proof. destruct b; [done|]. intros _. by apply requests_only_quiet. Qed.

Lemma no_rerun_bind {A B} (m : M A) (k : A → M B) :
  no_rerun m → (∀ a, no_rerun (k a)) → no_rerun (m ≫= k).
Proof.
  intros Hm Hk w. rewrite bind_run. specialize (Hm w).
  destruct (m w) as [[a| |e] w']; simpl in *; [apply Hk|done..].
Qed.

Lemma no_rerun_when (b : bool) (m : M unit) : no_rerun m → no_rerun (when b m).
Proof. by destruct b. Qed.

Lemma mapM_no_rerun {A B} (f : A → outcome B) (l : list A) :
  (∀ a, f a ≠ Rerun) → mapM f l ≠ Rerun.
Proof.
  intros Hf. induction l as [|a l IH]; simpl; [done|].
  specialize (Hf a). destruct (f a); simpl; [|done..].
  by destruct (mapM f l).
Qed.

Create HintDb frame.

(** Frame reasoning, one goal [keeps proj m] or [requests_only Φ m] at a
    time: split sequencing and branching, look compound functions up in
    the hint base [frame], settle primitives by computation. *)
Ltac primitive :=
  intros ?;
  cbv [request modify_sheets modify_caches modify_session get_session
       get_sheets get_caches get_config_source st_warning now raise
       st_rerun lift subscript with_session with_sheets with_caches];
  simpl; repeat case_match; done.

Ltac frame :=
  repeat first
    [ solve [auto with frame]
    | apply keeps_bind; [| intros ?]
    | apply keeps_ret
    | apply keeps_when
    | apply requests_only_bind; [| intros ?]
    | apply requests_only_when
    | apply requests_only_request; done
    | apply no_rerun_bind; [| intros ?]
    | apply no_rerun_when
    | match goal with
      | |- keeps _ (match ?x with _ => _ end) => destruct x
      | |- requests_only _ (match ?x with _ => _ end) => destruct x
      | |- no_rerun (match ?x with _ => _ end) => destruct x
      | |- requests_only _ _ => apply requests_only_quiet
      end
    | solve [primitive] ].

(** ** google_io.py: what is left alone *)

Lemma load_config_session : keeps session load_config.
Proof. unfold load_config. frame. Qed.
Lemma load_config_requests : requests_only not_append load_config.
Proof. unfold load_config. frame. Qed.
Lemma load_config_no_rerun : no_rerun load_config.
Proof. unfold load_config. frame. Qed.
#[local] Hint Resolve load_config_session load_config_requests
  load_config_no_rerun : frame.

Lemma get_gsheet_client_session : keeps session get_gsheet_client.
Proof. unfold get_gsheet_client. frame. Qed.
Lemma get_gsheet_client_requests : requests_only not_append get_gsheet_client.
Proof. unfold get_gsheet_client. frame. Qed.
Lemma get_gsheet_client_no_rerun : no_rerun get_gsheet_client.
Proof. unfold get_gsheet_client. frame. Qed.
#[local] Hint Resolve get_gsheet_client_session get_gsheet_client_requests
  get_gsheet_client_no_rerun : frame.

Lemma _get_stats_spreadsheet_session : keeps session _get_stats_spreadsheet.
Proof. unfold _get_stats_spreadsheet. frame. Qed.
Lemma _get_stats_spreadsheet_requests :
  requests_only not_append _get_stats_spreadsheet.
Proof. unfold _get_stats_spreadsheet. frame. Qed.
Lemma _get_stats_spreadsheet_no_rerun : no_rerun _get_stats_spreadsheet.
Proof. unfold _get_stats_spreadsheet. frame. Qed.
#[local] Hint Resolve _get_stats_spreadsheet_session
  _get_stats_spreadsheet_requests _get_stats_spreadsheet_no_rerun : frame.

Lemma get_stats_worksheet_session : keeps session get_stats_worksheet.
Proof. unfold get_stats_worksheet, ws_row_values, ws_update_row1. frame. Qed.
Lemma get_stats_worksheet_requests :
  requests_only not_append get_stats_worksheet.
Proof. unfold get_stats_worksheet, ws_row_values, ws_update_row1. frame. Qed.
Lemma get_stats_worksheet_no_rerun : no_rerun get_stats_worksheet.
Proof. unfold get_stats_worksheet, ws_row_values, ws_update_row1. frame. Qed.
#[local] Hint Resolve get_stats_worksheet_session get_stats_worksheet_requests
  get_stats_worksheet_no_rerun : frame.

Lemma write_stats_rows_session (evs : list Event) :
  keeps session (write_stats_rows evs).
Proof. unfold write_stats_rows, ws_append_rows. frame. Qed.

Lemma get_stats_worksheet_ret (w w' : World) (ws : worksheet) :
  get_stats_worksheet w = (Ret ws, w') → ws = Sheet1.
Proof.
  unfold get_stats_worksheet. intros H.
  repeat (rewrite bind_run in H;
          match type of H with
          | context [match ?m ?w0 with _ => _ end] =>
              destruct (m w0) as [[?| |?] ?]; try done
          end).
  by injection H.
Qed.

Lemma _event_to_row_no_rerun (e : Event) : _event_to_row e ≠ Rerun.
Proof.
  unfold _event_to_row, py_int.
  destruct (default (VInt 1) (e !! "delta")) as [|z|s]; [done..|].
  by destruct (int_of_str s).
Qed.

(** The requests and the end of a batch write of a non-empty list: some
    requests that append nothing, then, unless one of them or the row
    conversion raised, the one [append_rows] of all the rows. *)
Lemma write_stats_rows_run (evs : list Event) (w : World) :
  evs ≠ [] →
  let r := write_stats_rows evs w in
  r.1 ≠ Rerun ∧
  ∃ l, Forall not_append l ∧
    ((∃ e, r.1 = Raise e ∧ api_log r.2 = api_log w ++ l) ∨
     (∃ rows, mapM _event_to_row evs = Ret rows ∧
        api_log r.2 = api_log w ++ l ++ [AppendRows Sheet1 rows] ∧
        (r.1 = Ret () → ∃ pre, stats_sheet (sheets r.2) = pre ++ rows))).
Proof.
  intros Hne. unfold write_stats_rows.
  destruct evs as [|ev evs]; [done|]. set (all := ev :: evs). clearbody all.
  cbv zeta. rewrite bind_run.
  destruct (get_stats_worksheet_requests w) as (l & Hl & HΦ).
  pose proof (get_stats_worksheet_no_rerun w) as Hnr.
  destruct (get_stats_worksheet w) as [[ws| |e] w1] eqn:Hws; simpl in *;
    [|done|by eauto 10].
  apply get_stats_worksheet_ret in Hws as ->.
  rewrite bind_run. unfold lift.
  pose proof (mapM_no_rerun _ all _event_to_row_no_rerun) as Hrows.
  destruct (mapM _event_to_row all) as [rows| |e]; [|done|by eauto 10].
  unfold ws_append_rows, request. rewrite bind_run.
  destruct (faults w1) as [|[e|] fs]; simpl; rewrite Hl, <-(assoc_L (++));
    (split; [done|]); exists l; (split; [done|]); right; exists rows;
    (split; [done|]); (split; [done|]); by eauto.
Qed.

(** ** ui_app.py: the handlers, run *)

Lemma make_meta_event_run (mid event : string) (v : value) (w : World) :
  make_meta_event mid event v w =
  (Ret (meta_event_at (clock w (clock_reads w)) (current_half (session w))
          mid event v),
   (now w).2).
Proof. reflexivity. Qed.

Lemma meta_event_at_is_meta t h mid event v :
  is_meta_event (meta_event_at t h mid event v) event v.
Proof. by repeat split. Qed.

(** The end-of-match dialog after "Gem og afslut kamp": the meta events are
    appended, then the batch write decides how it ends. *)
Lemma end_dialog_run (mid : string) (players : list Player) (f : end_form)
    (w : World) :
  ef_save f = true →
  end_dialog mid players f w =
  let w1 := before_flush mid players f w in
  match write_stats_rows (events (session w1)) w1 with
  | (Ret _, w2) => (Rerun, with_session (set_wizard_step 4) w2)
  | (Rerun, w2) => (Rerun, w2)
  | (Raise e, w2) => (Raise e, w2)
  end.
Proof.
  intros Hsave. unfold end_dialog. rewrite Hsave.
  rewrite bind_run, make_meta_event_run.
  rewrite bind_run, make_meta_event_run.
  rewrite bind_run, make_meta_event_run.
  rewrite bind_run. cbn [modify_session]. rewrite bind_run. cbn [get_session].
  rewrite bind_run. fold (before_flush mid players f w).
  by destruct (write_stats_rows _ _) as [[[]| |e] w2].
Qed.

Lemma register_disabled (w : World) :
  can_register (session w) = false → step_record BtnRegister w = (Ret (), w).
Proof.
  unfold can_register. intros Hcan. unfold step_record.
  rewrite bind_run. cbn [get_session]. rewrite bind_run. cbn [get_session].
  by rewrite Hcan.
Qed.

Lemma register_miss (w : World) :
  can_register (session w) = true →
  find_player (match_players (session w)) (selected_player (session w)) = None →
  step_record BtnRegister w =
  (Rerun,
   with_session (set_selected_player None) (st_warning "Vælg spiller igen." w).2).
Proof.
  unfold can_register. intros Hcan Hfind. unfold step_record.
  rewrite bind_run. cbn [get_session]. rewrite bind_run. cbn [get_session].
  by rewrite Hcan, Hfind.
Qed.

Lemma register_hit (w : World) (p : Player) (m : Match) :
  can_register (session w) = true →
  find_player (match_players (session w)) (selected_player (session w)) = Some p →
  current_match (session w) = Some m →
  step_record BtnRegister w =
  (Rerun,
   with_session
     (λ s, set_selected_player None
             (set_selected_event None
                (set_events (events s ++ [registered_event p m w]) s)))
     (now w).2).
Proof.
  unfold can_register. intros Hcan Hfind Hmatch. unfold step_record.
  rewrite bind_run. cbn [get_session]. rewrite bind_run. cbn [get_session].
  by rewrite Hcan, Hfind, Hmatch.
Qed.

Lemma half_dialog_run (mid : string) (f : half_form) (w : World) :
  hf_save f = true →
  half_dialog mid f w =
  (Rerun,
   with_session
     (λ s, set_events
             (events s ++
                [meta_event_at (clock w (clock_reads w)) (current_half (session w))
                   mid "HALVLEG_RESULTAT"
                   (VStr (score_text (hf_ours f) (hf_opp f)))]) s)
     (now w).2).
Proof. intros Hsave. unfold half_dialog. by rewrite Hsave. Qed.

(** ** The event list only grows *)

Lemma extends_bind {A B} (m : M A) (k : A → M B) :
  extends_events m → (∀ a, extends_events (k a)) → extends_events (m ≫= k).
Proof.
  intros Hm Hk w. rewrite bind_run. specialize (Hm w).
  destruct (m w) as [[a| |e] w']; simpl in *; [|done..].
  by etrans; [|apply Hk].
Qed.

Lemma extends_keeps {A} (m : M A) : keeps session m → extends_events m.
Proof. intros Hm w. by rewrite Hm. Qed.

Lemma extends_modify (f : Session → Session) :
  (∀ s, events s `prefix_of` events (f s)) → extends_events (modify_session f).
Proof. intros Hf w. apply Hf. Qed.

Ltac grow :=
  repeat first
    [ apply extends_bind; [| intros ?]
    | apply extends_modify; intros ?; simpl;
      first [reflexivity | by apply prefix_app_r]
    | solve [apply extends_keeps; first [by auto with frame | frame]]
    | match goal with
      | |- extends_events (match ?x with _ => _ end) => destruct x
      | |- extends_events (if ?b then _ else _) => destruct b
      end ].

Lemma write_stats_rows_extends (evs : list Event) :
  extends_events (write_stats_rows evs).
Proof. apply extends_keeps, write_stats_rows_session. Qed.
#[local] Hint Resolve write_stats_rows_session : frame.

Lemma end_dialog_extends mid players f : extends_events (end_dialog mid players f).
Proof. unfold end_dialog, make_meta_event. grow. Qed.

Lemma half_dialog_extends mid f : extends_events (half_dialog mid f).
Proof. unfold half_dialog, make_meta_event. grow. Qed.

Lemma step_record_extends (c : record_click) : extends_events (step_record c).
Proof.
  unfold step_record, match_id_of, build_event.
  pose proof end_dialog_extends. pose proof half_dialog_extends.
  grow; auto.
Qed.

Lemma step_select_players_extends players selected pressed :
  extends_events (step_select_players players selected pressed).
Proof. unfold step_select_players. grow. Qed.

Lemma main_extends (players : list Player) (ui : ui_input) :
  is_reset ui = false → extends_events (main players ui).
Proof.
  intros Hui. unfold main.
  pose proof step_record_extends. pose proof step_select_players_extends.
  apply extends_bind; [grow|]. intros s.
  repeat case_bool_decide; destruct ui as [? ? ? []| | |[]]; try done;
    unfold step_create_match, step_summary; grow; auto.
Qed.

(** ** Past the first step a match is current *)

Lemma keeps_session_part {X A} (g : Session → X) (m : M A) :
  keeps session m → keeps (λ w, g (session w)) m.
Proof. intros Hm w. by rewrite Hm. Qed.

Lemma end_dialog_current_match mid players f :
  keeps (λ w, current_match (session w)) (end_dialog mid players f).
Proof.
  pose proof (λ evs, keeps_session_part current_match _
                       (write_stats_rows_session evs)).
  unfold end_dialog, make_meta_event. frame.
Qed.

Lemma step_record_current_match (c : record_click) :
  keeps (λ w, current_match (session w)) (step_record c).
Proof.
  pose proof end_dialog_current_match.
  unfold step_record, half_dialog, make_meta_event, match_id_of, build_event.
  frame; auto.
Qed.

Lemma step_select_players_current_match players selected pressed :
  keeps (λ w, current_match (session w))
    (step_select_players players selected pressed).
Proof. unfold step_select_players. frame. Qed.

Lemma append_match_record_session (m : Match) :
  keeps session (append_match_record m).
Proof.
  unfold append_match_record, get_matches_worksheet, ws_append_row,
    ws_update_row1.
  frame.
Qed.

Lemma main_match_known (players : list Player) (ui : ui_input) (w : World) :
  match_known (session w) → match_known (session (main players ui w).2).
Proof.
  intros Hknown. unfold main. rewrite bind_run. cbn [get_session].
  repeat case_bool_decide.
  - destruct ui as [team d opp []| | |]; try done.
    unfold step_create_match. rewrite bind_run.
    pose proof (append_match_record_session (create_match d team opp) w) as Hs.
    destruct (append_match_record _ w) as [[[]| |e] w1]; simpl in *;
      [|by rewrite Hs..].
    right. by eexists.
  - assert (is_Some (current_match (session w))) as Hsome
      by (destruct Hknown; [congruence | done]).
    right. destruct ui as [| selected pressed | |];
      by rewrite (step_select_players_current_match _ _ _ w).
  - assert (is_Some (current_match (session w))) as Hsome
      by (destruct Hknown; [congruence | done]).
    right. destruct ui; by rewrite (step_record_current_match _ w).
  - destruct ui as [| | |[]]; try done. by left.
Qed.

Lemma interactions_match_known (runs : list (list Player * ui_input))
    (w : World) :
  match_known (session w) → match_known (session (interactions runs w)).
Proof.
  unfold interactions. revert w.
  induction runs as [|[players ui] runs IH]; intros w Hknown; simpl; [done|].
  apply IH. by apply main_match_known.
Qed.

(** In a session that began with the defaults, the Record step always has a
    current match to take the match id from. *)
Lemma recording_has_match (runs : list (list Player * ui_input)) (w : World) :
  session w = defaults →
  wizard_step (session (interactions runs w)) = 3%Z →
  ∃ m, current_match (session (interactions runs w)) = Some m.
Proof.
  intros Hinit Hstep.
  destruct (interactions_match_known runs w) as [H1|[m Hm]];
    [rewrite Hinit; by left | congruence | by exists m].
Qed.


(** ** stats_engine.py *)

(** C4. [create_match_id] gives equal identifiers for equal inputs; the
    identifier is the date as YYYY-MM-DD, then "_H" and the team number,
    then "_" and the trimmed opponent with each of its spaces turned into
    an underscore; team "1" against "FC Falcon" on 2024-03-01 gets
    "2024-03-01_H1_FC_Falcon". *)
Theorem create_match_id_format :
  (∀ d1 t1 o1 d2 t2 o2,
      d1 = d2 → t1 = t2 → o1 = o2 →
      create_match_id d1 t1 o1 = create_match_id d2 t2 o2) ∧
  (∀ d t o, create_match_id d t o = spec_match_id d t o) ∧
  create_match_id (mk_date 2024 3 1) "1" "FC Falcon" = "2024-03-01_H1_FC_Falcon".
Proof.
  split; [by intros ?????? -> -> ->|].
  split; [apply create_match_id_unfold | reflexivity].
Qed.

(** C5, as the code has it. Opponents whose trimmed forms differ in length
    never share an identifier, since every space becomes an underscore of
    its own; still there are opponents that differ only in internal
    spacing and share one: "A _B" and "A_ B". *)
Theorem internal_spacing_identifiers :
  (∀ d t o1 o2,
      String.length (py_strip o1) ≠ String.length (py_strip o2) →
      create_match_id d t o1 ≠ create_match_id d t o2) ∧
  differ_only_in_internal_spacing "A _B" "A_ B" ∧
  (∀ d t, create_match_id d t "A _B" = create_match_id d t "A_ B").
Proof.
  split; [|split].
  - intros d t o1 o2 Hlen Hid. apply create_match_id_same_iff in Hid.
    apply (f_equal String.length) in Hid.
    by rewrite !underscore_spaces_length in Hid.
  - by repeat split.
  - intros d t. by apply create_match_id_same_iff.
Qed.

(** C9. [build_event] returns an event stamped with the clock reading of
    the call, holding the given match id and event type and the player's
    name, primary position and primary team, and no "half" and no "delta";
    an event without "delta" gets 1 in the eighth column, the one headed
    "Delta", when [_event_to_row] makes its row. *)
Theorem build_event_then_row (p : Player) (event_type : value) (mid : string)
    (w : World) (e : Event) :
  e !! "delta" = None →
  (∃ ev, (build_event p event_type mid w).1 = Ret ev ∧
     ev !! "timestamp" = Some (VStr (strftime_ymd_hms (clock w (clock_reads w)))) ∧
     ev !! "match_id" = Some (VStr mid) ∧
     ev !! "event" = Some event_type ∧
     ev !! "player" = Some (VStr (name p)) ∧
     ev !! "pos_primary" = Some (VStr (pos_primary p)) ∧
     ev !! "team_primary" = Some (VStr (team_primary p)) ∧
     ev !! "half" = None ∧ ev !! "delta" = None ∧
     ∃ r, _event_to_row ev = Ret r ∧ r !! 7 = Some (VInt 1)) ∧
  (∃ r, _event_to_row e = Ret r ∧ r !! 7 = Some (VInt 1)) ∧
  expected_header !! 7 = Some (VStr "Delta").
Proof.
  intros Hdelta. split; [|split; [|done]].
  - eexists. split; [reflexivity|]. repeat (split; [done|]).
    eexists. by split.
  - unfold _event_to_row. rewrite Hdelta. simpl. eexists. by split.
Qed.

(** ** google_io.py *)

(** C10. [write_stats_rows] of an empty list returns at once and leaves the
    world, the spreadsheet and the request log included, as it was; a run
    that issues an append request was given a non-empty list. *)
Theorem write_stats_rows_empty (w : World) :
  write_stats_rows [] w = (Ret (), w) ∧
  (∀ evs c,
      c ∈ new_requests w (write_stats_rows evs w).2 → is_append c = true →
      evs ≠ []).
Proof.
  split; [done|]. intros evs c Hc _ ->. simpl in Hc.
  unfold new_requests in Hc. rewrite drop_all in Hc. by apply elem_of_nil in Hc.
Qed.

Lemma appends_quiet (l : list api_call) : Forall not_append l → appends l = [].
Proof.
  unfold appends, not_append. induction 1 as [|c l Hc _ IH]; [done|].
  rewrite filter_cons_False; [done | congruence].
Qed.

(** ** ui_app.py *)

(** How the end-of-match dialog ends is how its batch write ends. *)
Lemma end_dialog_outcome (mid : string) (players : list Player) (f : end_form)
    (w : World) :
  ef_save f = true →
  let w1 := before_flush mid players f w in
  let wr := write_stats_rows (events (session w1)) w1 in
  (wr.1 = Ret () ∧
     end_dialog mid players f w = (Rerun, with_session (set_wizard_step 4) wr.2)) ∨
  (∃ e, wr.1 = Raise e ∧ end_dialog mid players f w = (Raise e, wr.2)).
Proof.
  intros Hsave w1 wr. rewrite (end_dialog_run _ _ _ _ Hsave). cbv zeta.
  fold w1. fold wr.
  assert (events (session w1) ≠ []) as Hne.
  { simpl. intros H%(f_equal length). rewrite length_app in H. simpl in H. lia. }
  destruct (write_stats_rows_run _ w1 Hne) as [Hnr _]. fold wr in Hnr.
  destruct wr as [[[]| |e] w2]; simpl in *; [by left|done|by eauto].
Qed.

(** C1, as the code has it. When the batch write of the end-of-match dialog
    raises, the dialog raises the same exception and the wizard stays on
    the step it was on; every session key but [events] has its value of
    before the attempt, and [events] is the list of before the attempt with
    the three meta events at its end. *)
Theorem end_dialog_write_raises (mid : string) (players : list Player)
    (f : end_form) (w w' : World) (e : exn) :
  ef_save f = true →
  write_stats_rows (events (session (before_flush mid players f w)))
    (before_flush mid players f w) = (Raise e, w') →
  end_dialog mid players f w = (Raise e, w') ∧
  session w' =
    set_events (events (session w) ++ end_metas mid players f w) (session w) ∧
  wizard_step (session w') = wizard_step (session w) ∧
  current_match (session w') = current_match (session w) ∧
  match_players (session w') = match_players (session w) ∧
  selected_event (session w') = selected_event (session w) ∧
  selected_player (session w') = selected_player (session w) ∧
  current_half (session w') = current_half (session w) ∧
  events (session w') = events (session w) ++ end_metas mid players f w.
Proof.
  intros Hsave Hwrite.
  pose proof (write_stats_rows_session
                (events (session (before_flush mid players f w)))
                (before_flush mid players f w)) as Hkeep.
  rewrite (end_dialog_run _ _ _ _ Hsave). cbv zeta.
  rewrite Hwrite in Hkeep |- *. simpl in Hkeep.
  split; [done|]. by rewrite Hkeep.
Qed.



Lemma interactions_extend (runs : list (list Player * ui_input)) (w : World) :
  Forall (λ i, is_reset i.2 = false) runs →
  events (session w) `prefix_of` events (session (interactions runs w)).
Proof.
  unfold interactions. intros Hruns. revert w.
  induction Hruns as [|[players ui] runs Hui _ IH]; intros w; simpl; [done|].
  etrans; [|apply IH]. by apply main_extends.
Qed.

(** C6. Over any number of script runs none of which presses "Opret kamp"
    or "Start ny kamp", the event list of before is a prefix of the event
    list of after: every entry is where it was and as it was, its "half"
    included. A registration that finds its player makes the list one
    longer, a saved half-time score makes it one longer, by an event
    stamped with the half current at that moment, and the two half buttons
    change [current_half] and leave the list alone. *)
Theorem events_append_only (runs : list (list Player * ui_input)) (w : World) :
  Forall (λ i, is_reset i.2 = false) runs →
  let w' := interactions runs w in
  events (session w) `prefix_of` events (session w') ∧
  (∀ i e, events (session w) !! i = Some e → events (session w') !! i = Some e) ∧
  (∀ p m,
     can_register (session w') = true →
     find_player (match_players (session w')) (selected_player (session w')) = Some p →
     current_match (session w') = Some m →
     ∃ ev, events (session (step_record BtnRegister w').2)
             = events (session w') ++ [ev] ∧
           length (events (session (step_record BtnRegister w').2))
             = S (length (events (session w'))) ∧
           ev !! "half" = Some (VInt (current_half (session w')))) ∧
  (∀ f m,
     hf_save f = true →
     current_match (session w') = Some m →
     ∃ ev, events (session (step_record (BtnHalfDialog f) w').2)
             = events (session w') ++ [ev] ∧
           length (events (session (step_record (BtnHalfDialog f) w').2))
             = S (length (events (session w'))) ∧
           is_meta_event ev "HALVLEG_RESULTAT"
             (VStr (score_text (hf_ours f) (hf_opp f))) ∧
           ev !! "half" = Some (VInt (current_half (session w')))) ∧
  session (step_record BtnHalf1 w').2 = set_current_half 1 (session w') ∧
  session (step_record BtnHalf2 w').2 = set_current_half 2 (session w') ∧
  events (session (step_record BtnHalf1 w').2) = events (session w') ∧
  events (session (step_record BtnHalf2 w').2) = events (session w').
Proof.
  intros Hruns w'. pose proof (interactions_extend runs w Hruns) as Hpre.
  fold w' in Hpre. clearbody w'.
  split; [done|]. split; [|split; [|split; [|done]]].
  - intros i e Hi. by eapply prefix_lookup_Some.
  - intros p m Hcan Hfind Hmatch. rewrite (register_hit w' p m) by done.
    exists (registered_event p m w'). simpl. rewrite length_app. simpl.
    split; [done|]. split; [lia|done].
  - intros f m Hsave Hmatch. unfold step_record.
    rewrite bind_run. cbn [get_session]. rewrite Hmatch.
    rewrite bind_run. cbn [match_id_of mret M_ret]. rewrite half_dialog_run by done.
    eexists. simpl. rewrite length_app. simpl.
    split; [done|]. split; [lia|]. split; [apply meta_event_at_is_meta|done].
Qed.

(** C7. "Start kamp" with nothing selected: the run returns, the warning
    "Vælg mindst én spiller." is shown, and everything else, all session
    keys, the spreadsheet and the request log, is as before. *)
Theorem empty_selection_rejected (players : list Player) (w : World) :
  wizard_step (session w) = 2%Z →
  let r := main players (OnSelectPlayers [] true) w in
  r = step_select_players players [] true w ∧
  r.1 = Ret () ∧
  session r.2 = session w ∧
  wizard_step (session r.2) = 2%Z ∧
  sheets r.2 = sheets w ∧
  api_log r.2 = api_log w ∧
  faults r.2 = faults w ∧
  caches r.2 = caches w ∧
  clock_reads r.2 = clock_reads w ∧
  warnings r.2 = warnings w ++ ["Vælg mindst én spiller."].
Proof.
  intros Hstep r. subst r. unfold main. rewrite bind_run. cbn [get_session].
  rewrite Hstep. by repeat split.
Qed.

(** C8. "Start ny kamp" puts every session key back to its default: step 1,
    no current match, no match players, no events, both selection slots
    empty, first half; it asks for a rerun and issues no request, so the
    spreadsheet is as before. *)
Theorem summary_resets (w : World) :
  let r := step_summary true w in
  r.1 = Rerun ∧
  session r.2 = defaults ∧
  wizard_step (session r.2) = 1%Z ∧
  current_match (session r.2) = None ∧
  match_players (session r.2) = [] ∧
  events (session r.2) = [] ∧
  selected_event (session r.2) = None ∧
  selected_player (session r.2) = None ∧
  current_half (session r.2) = 1%Z ∧
  sheets r.2 = sheets w ∧
  api_log r.2 = api_log w.
Proof. by repeat split. Qed.

Lemma main_summary (players : list Player) (w : World) :
  (wizard_step (session w) ≠ 1 ∧ wizard_step (session w) ≠ 2 ∧
   wizard_step (session w) ≠ 3)%Z →
  main players (OnSummary true) w = step_summary true w.
Proof.
  intros (H1 & H2 & H3). unfold main. rewrite bind_run. cbn [get_session].
  by repeat case_bool_decide.
Qed.

(** ** More on strings: trimming twice is trimming once *)

Lemma append_nil_r (s : string) : s +:+ "" = s.
Proof.
  induction s as [|c s IH]; [done|].
  change (String c (s +:+ "") = String c s). by rewrite IH.
Qed.

Lemma append_assoc (s t u : string) : (s +:+ t) +:+ u = s +:+ (t +:+ u).
Proof.
  induction s as [|c s IH]; [done|].
  change (String c ((s +:+ t) +:+ u) = String c (s +:+ (t +:+ u))).
  by rewrite IH.
Qed.

Lemma rev_app_append (s t u : string) :
  String.rev_app s t +:+ u = String.rev_app s (t +:+ u).
Proof. revert t. induction s as [|c s IH]; intros t; simpl; [done | by rewrite IH]. Qed.

Lemma rev_cons (c : ascii) (s : string) :
  String.rev (String c s) = String.rev s +:+ String c "".
Proof. unfold String.rev. simpl. by rewrite rev_app_append. Qed.

Lemma rev_append (s t : string) :
  String.rev (s +:+ t) = String.rev t +:+ String.rev s.
Proof.
  induction s as [|c s IH].
  - change (String.rev t = String.rev t +:+ ""). by rewrite append_nil_r.
  - change (String c s +:+ t) with (String c (s +:+ t)).
    by rewrite !rev_cons, IH, append_assoc.
Qed.

Lemma length_append (s t : string) :
  String.length (s +:+ t) = String.length s + String.length t.
Proof. induction s as [|c s IH]; simpl; [done | by rewrite IH]. Qed.

Lemma rev_length (s : string) : String.length (String.rev s) = String.length s.
Proof.
  induction s as [|c s IH]; [done|].
  rewrite rev_cons, length_append, IH. simpl. lia.
Qed.

Lemma rev_involutive (s : string) : String.rev (String.rev s) = s.
Proof.
  induction s as [|c s IH]; [done|].
  by rewrite rev_cons, rev_append, IH.
Qed.

Lemma string_drop_split (n : nat) (s : string) :
  ∃ a, s = a +:+ string_drop n s.
Proof.
  revert s. induction n as [|n IH]; intros [|c s]; simpl;
    try by exists "".
  destruct (IH s) as [a Ha]. exists (String c a).
  change (String c s = String c (a +:+ string_drop n s)). by rewrite <- Ha.
Qed.

Lemma strip_left_split (pats : list string) (fuel : nat) (s : string) :
  ∃ a, s = a +:+ strip_left pats fuel s.
Proof.
  revert s. induction fuel as [|fuel IH]; intros s; simpl; [by exists ""|].
  destruct (drop_one pats s) as [s'|] eqn:E; [|by exists ""].
  assert (∃ a, s = a +:+ s') as [a ->].
  { clear IH. induction pats as [|p pats IHp]; simpl in E; [done|].
    destruct (String.prefix p s); [|by auto].
    injection E as <-. apply string_drop_split. }
  destruct (IH s') as [b Hb]. exists (a +:+ b). by rewrite append_assoc, <- Hb.
Qed.

Lemma strip_left_nothing (pats : list string) (fuel : nat) (s : string) :
  drop_one pats s = None → strip_left pats fuel s = s.
Proof. intros H. destruct fuel; simpl; [done | by rewrite H]. Qed.

Lemma prefix_append (p s t : string) :
  String.prefix p s = true → String.prefix p (s +:+ t) = true.
Proof.
  revert p. induction s as [|c s IH]; intros [|a p]; simpl; try done.
  - by destruct t.
  - destruct (ascii_dec a c); [apply IH | done].
Qed.

Lemma drop_one_none_prefix (pats : list string) (s t : string) :
  drop_one pats (s +:+ t) = None → drop_one pats s = None.
Proof.
  induction pats as [|p pats IH]; simpl; [done|].
  destruct (String.prefix p s) eqn:E.
  - by rewrite (prefix_append _ _ t E).
  - destruct (String.prefix p (s +:+ t)); [done | apply IH].
Qed.

Lemma whitespace_nonempty : Forall (λ p, p ≠ "") py_whitespace.
Proof. unfold py_whitespace. repeat (constructor; [done|]). constructor. Qed.

Lemma reversed_whitespace_nonempty :
  Forall (λ p, p ≠ "") (String.rev <$> py_whitespace).
Proof. unfold py_whitespace. repeat (constructor; [done|]). constructor. Qed.

(** What [py_rstrip] leaves has no whitespace at its end, and is a
    beginning of what it was given. *)
Lemma py_rstrip_done (s : string) :
  drop_one (String.rev <$> py_whitespace) (String.rev (py_rstrip s)) = None.
Proof.
  unfold py_rstrip. rewrite rev_involutive.
  apply strip_left_done; [apply reversed_whitespace_nonempty|].
  by rewrite rev_length.
Qed.

Lemma py_rstrip_split (s : string) : ∃ k, s = py_rstrip s +:+ k.
Proof.
  unfold py_rstrip.
  destruct (strip_left_split (String.rev <$> py_whitespace)
              (String.length s) (String.rev s)) as [a Ha].
  exists (String.rev a).
  by rewrite <- rev_append, <- Ha, rev_involutive.
Qed.

Lemma py_strip_ends (s : string) :
  drop_one py_whitespace (py_strip s) = None ∧
  drop_one (String.rev <$> py_whitespace) (String.rev (py_strip s)) = None.
Proof.
  unfold py_strip. split; [|apply py_rstrip_done].
  destruct (py_rstrip_split (py_lstrip s)) as [k Hk].
  apply (drop_one_none_prefix _ _ k). rewrite <- Hk. apply py_lstrip_done.
Qed.

Lemma py_strip_fixed (s : string) :
  drop_one py_whitespace s = None →
  drop_one (String.rev <$> py_whitespace) (String.rev s) = None →
  py_strip s = s.
Proof.
  intros Hl Hr. unfold py_strip, py_lstrip. rewrite strip_left_nothing by done.
  unfold py_rstrip. rewrite strip_left_nothing by done. apply rev_involutive.
Qed.

Lemma py_strip_idempotent (s : string) : py_strip (py_strip s) = py_strip s.
Proof. destruct (py_strip_ends s). by apply py_strip_fixed. Qed.

(** ** stats_engine.py: matches *)

(** Re-creating a match from the opponent text it stores gives the same match
    and the same identifier, and so does any opponent text that trims to the
    same: whitespace around the opponent never matters. *)
Theorem create_match_from_stored (d : date) (team opp opp' : string) :
  py_strip opp' = py_strip opp →
  let m := create_match d team opp in
  create_match d team opp' = m ∧
  create_match d team (opponent m) = m ∧
  create_match_id d team (opponent m) = match_id m.
Proof.
  intros Hsame. cbv zeta. unfold create_match, create_match_id.
  cbn [opponent match_id]. by rewrite py_strip_idempotent, Hsame.
Qed.

Lemma underscore_spaces_no_space (s : string) :
  " "%char ∉ String.list_ascii_of_string (underscore_spaces s).
Proof.
  induction s as [|c s IH]; simpl; [apply not_elem_of_nil|].
  apply not_elem_of_cons. split; [|done].
  destruct (Ascii.eqb_spec c " "); [done | congruence].
Qed.

(** The part of a match identifier that comes from the opponent holds no
    space and is as long as the trimmed opponent. *)
Theorem match_id_opponent_part (d : date) (team opp : string) :
  ∃ part,
    create_match_id d team opp
    = strftime_ymd d +:+ "_H" +:+ team +:+ "_" +:+ part ∧
    String.length part = String.length (py_strip opp) ∧
    " "%char ∉ String.list_ascii_of_string part.
Proof.
  exists (underscore_spaces (py_strip opp)). split; [|split].
  - apply create_match_id_unfold.
  - apply underscore_spaces_length.
  - apply underscore_spaces_no_space.
Qed.

(** ** google_io.py: the readers *)

Lemma omap_length_le {A B} (f : A → option B) (l : list A) :
  length (omap f l) ≤ length l.
Proof.
  induction l as [|a l IH]; [done|].
  change (omap f (a :: l))
    with (match f a with Some b => b :: omap f l | None => omap f l end).
  destruct (f a); simpl; lia.
Qed.

Lemma cell_or_empty_in (r : list string) (i : nat) :
  i < length r → cell_or_empty r i = cell r i.
Proof.
  intros Hi. unfold cell_or_empty.
  destruct (i <? length r)%nat eqn:E; [done|]. apply Nat.ltb_ge in E. lia.
Qed.

Lemma load_players_loop (acc : list Player) (l : list (list string)) :
  foldl (λ players r,
           if (length r <? 5)%nat then players
           else if String.eqb (cell r 1) "" then players
           else players ++
                  [{| name := cell r 1;
                      pos_primary := cell_or_empty r 2;
                      pos_secondary := cell_or_empty r 3;
                      team_primary := cell_or_empty r 4;
                      team_secondary := cell_or_empty r 5 |}])
        acc l
  = acc ++ omap player_of_row l.
Proof.
  revert acc. induction l as [|r l IH]; intros acc; simpl.
  { by rewrite (right_id_L [] (++)). }
  rewrite IH. unfold player_of_row.
  destruct (length r <? 5)%nat; [done|].
  destruct (String.eqb (cell r 1) ""); [done|].
  by rewrite <- (assoc_L (++)).
Qed.

(** [load_players] returns, in sheet order, one player for every row from
    the sixth on that has at least five cells and a name in its second cell,
    and nothing else: the five rows on top never count, a short row never
    counts, and no player comes without a name. *)
Theorem load_players_rows (rows : list (list string)) (p : Player) :
  load_players_from rows = omap player_of_row (drop 5 rows) ∧
  (p ∈ load_players_from rows ↔
   ∃ i r, 5 ≤ i ∧ rows !! i = Some r ∧ 5 ≤ length r ∧ cell r 1 ≠ "" ∧
          p = mk_player (cell r 1) (cell r 2) (cell r 3) (cell r 4)
                (cell_or_empty r 5)) ∧
  (p ∈ load_players_from rows → name p ≠ "") ∧
  length (load_players_from rows) ≤ length rows - 5.
Proof.
  assert (load_players_from rows = omap player_of_row (drop 5 rows)) as Heq
    by apply (load_players_loop []).
  assert (p ∈ load_players_from rows ↔
          ∃ i r, 5 ≤ i ∧ rows !! i = Some r ∧ 5 ≤ length r ∧ cell r 1 ≠ "" ∧
                 p = mk_player (cell r 1) (cell r 2) (cell r 3) (cell r 4)
                       (cell_or_empty r 5)) as Hin.
  { rewrite Heq, list_elem_of_omap. split.
    - intros (r & [j Hj]%list_elem_of_lookup & Hp).
      rewrite lookup_drop in Hj. exists (5 + j), r.
      unfold player_of_row in Hp.
      destruct (length r <? 5)%nat eqn:Hlen; [done|].
      apply Nat.ltb_ge in Hlen.
      destruct (String.eqb_spec (cell r 1) ""); [done|].
      injection Hp as <-. repeat split; try done; try lia.
      by rewrite (cell_or_empty_in r 2), (cell_or_empty_in r 3),
        (cell_or_empty_in r 4) by lia.
    - intros (i & r & Hi & Hr & Hlen & Hname & ->). exists r. split.
      + apply list_elem_of_lookup. exists (i - 5). rewrite lookup_drop.
        by replace (5 + (i - 5)) with i by lia.
      + unfold player_of_row.
        destruct (length r <? 5)%nat eqn:Hlt; [apply Nat.ltb_lt in Hlt; lia|].
        destruct (String.eqb_spec (cell r 1) ""); [done|].
        by rewrite (cell_or_empty_in r 2), (cell_or_empty_in r 3),
          (cell_or_empty_in r 4) by lia. }
  split; [done|]. split; [done|]. split.
  - intros (i & r & _ & _ & _ & Hname & ->)%Hin. done.
  - rewrite Heq. etrans; [apply omap_length_le|]. by rewrite length_drop.
Qed.


Lemma get_all_matches_loop (acc : list Match) (l : list (list string)) :
  foldl (λ matches r,
           if bool_decide (r = []) || String.eqb (cell r 0) "" then matches
           else matches ++
                  [{| match_id := cell r 0;
                      match_date := cell_or_empty r 1;
                      team_number := cell_or_empty r 2;
                      opponent := cell_or_empty r 3 |}])
        acc l
  = acc ++ omap match_of_row l.
Proof.
  revert acc. induction l as [|r l IH]; intros acc; simpl.
  { by rewrite (right_id_L [] (++)). }
  rewrite IH. unfold match_of_row.
  destruct (bool_decide (r = []) || String.eqb (cell r 0) ""); [done|].
  by rewrite <- (assoc_L (++)).
Qed.

Lemma get_all_matches_omap (rows : list (list string)) :
  get_all_matches_from rows = omap match_of_row (drop 1 rows).
Proof.
  unfold get_all_matches_from.
  destruct (length rows <=? 1)%nat eqn:Hlen.
  - apply Nat.leb_le in Hlen. by destruct rows as [|? [|? ?]]; simpl in *; try lia.
  - apply (get_all_matches_loop []).
Qed.

(** [get_all_matches] returns, in sheet order, one match for every row below
    the first whose first cell is not empty, and nothing else: the header row
    never counts, a sheet with the header alone gives no match, and no match
    comes without an identifier. *)
Theorem get_all_matches_rows (rows : list (list string)) (m : Match) :
  get_all_matches_from rows = omap match_of_row (drop 1 rows) ∧
  (length rows ≤ 1 → get_all_matches_from rows = []) ∧
  (m ∈ get_all_matches_from rows ↔
   ∃ i r, 1 ≤ i ∧ rows !! i = Some r ∧ cell r 0 ≠ "" ∧
          m = mk_match (cell r 0) (cell_or_empty r 1) (cell_or_empty r 2)
                (cell_or_empty r 3)) ∧
  (m ∈ get_all_matches_from rows → match_id m ≠ "") ∧
  length (get_all_matches_from rows) ≤ length rows - 1.
Proof.
  assert (m ∈ get_all_matches_from rows ↔
          ∃ i r, 1 ≤ i ∧ rows !! i = Some r ∧ cell r 0 ≠ "" ∧
                 m = mk_match (cell r 0) (cell_or_empty r 1) (cell_or_empty r 2)
                       (cell_or_empty r 3)) as Hin.
  { rewrite get_all_matches_omap, list_elem_of_omap. split.
    - intros (r & [j Hj]%list_elem_of_lookup & Hm).
      rewrite lookup_drop in Hj. exists (1 + j), r.
      unfold match_of_row in Hm.
      destruct (bool_decide (r = [])); [done|].
      destruct (String.eqb_spec (cell r 0) ""); [done|].
      injection Hm as <-. repeat split; try done; lia.
    - intros (i & r & Hi & Hr & Hid & ->). exists r. split.
      + apply list_elem_of_lookup. exists (i - 1). rewrite lookup_drop.
        by replace (1 + (i - 1)) with i by lia.
      + unfold match_of_row. rewrite bool_decide_eq_false_2 by (by intros ->).
        by destruct (String.eqb_spec (cell r 0) ""). }
  split; [apply get_all_matches_omap|].
  split; [|split; [done|split]].
  - intros Hlen. unfold get_all_matches_from.
    by rewrite (proj2 (Nat.leb_le _ _) Hlen).
  - intros (i & r & _ & _ & Hid & ->)%Hin. done.
  - rewrite get_all_matches_omap. etrans; [apply omap_length_le|].
    by rewrite length_drop.
Qed.

Lemma match_of_row_cells (m : Match) :
  match_of_row (match_cells m)
  = (if String.eqb (match_id m) "" then None else Some m) ∧
  match_of_row (without_trailing_empty (match_cells m))
  = (if String.eqb (match_id m) "" then None else Some m).
Proof.
  destruct m as [a b c d].
  unfold match_of_row, without_trailing_empty, match_cells. cbn.
  split.
  - by destruct (String.eqb a "").
  - repeat match goal with
           | |- context [String.eqb ?x ""] =>
               destruct (String.eqb_spec x ""); subst; cbn
           end; done.
Qed.

Lemma omap_match_rows (g : Match → list string) (ms : list Match) :
  (∀ m, match_of_row (g m)
        = if String.eqb (match_id m) "" then None else Some m) →
  omap match_of_row (g <$> ms) = filter (λ m, match_id m ≠ "") ms.
Proof.
  intros Hg. induction ms as [|m ms IH]; [done|].
  change (omap match_of_row (g <$> m :: ms))
    with (match match_of_row (g m) with
          | Some x => x :: omap match_of_row (g <$> ms)
          | None => omap match_of_row (g <$> ms)
          end).
  rewrite Hg, IH. destruct (String.eqb_spec (match_id m) "").
  - by rewrite filter_cons_False by (by intros ?).
  - by rewrite filter_cons_True by done.
Qed.

(** What [append_match_record] sends, [get_all_matches] reads back: from a
    sheet that holds a header row and then the cells sent for the matches
    [ms], whether or not it hands rows back without the empty cells at their
    end, come the matches [ms] themselves, in order, but for those with an
    empty identifier, which are left out. *)
Theorem get_all_matches_reads_back (header : list string) (ms : list Match) :
  get_all_matches_from (header :: (match_cells <$> ms))
  = filter (λ m, match_id m ≠ "") ms ∧
  get_all_matches_from
    (header :: ((without_trailing_empty ∘ match_cells) <$> ms))
  = filter (λ m, match_id m ≠ "") ms.
Proof.
  rewrite !get_all_matches_omap. cbn [drop]. split.
  - apply omap_match_rows. intros m. apply match_of_row_cells.
  - apply omap_match_rows. intros m. apply match_of_row_cells.
Qed.


Lemma stats_loop_mapM (mid : string) (l : list (list string)) (acc : list Event) :
  stats_loop mid l acc
  = (λ evs, acc ++ evs)
    <$> mapM (λ r, event_of_row mid r <$> row_delta r)
          (filter (λ r, row_of_match mid r = true) l).
Proof.
  revert acc. induction l as [|r l IH]; intros acc.
  { simpl. by rewrite (right_id_L [] (++)). }
  cbn [stats_loop]. destruct (row_of_match mid r) eqn:Hrow.
  - rewrite filter_cons_True by done.
    unfold row_of_match in Hrow. apply andb_true_iff in Hrow as [Hle Hmid].
    apply Nat.leb_le in Hle.
    rewrite (proj2 (Nat.ltb_ge _ _) Hle), Hmid. cbn [negb].
    cbn [mapM]. destruct (row_delta r) as [delta|]; [|done].
    rewrite IH. fold (event_of_row mid r delta). cbn.
    destruct (mapM _ _) as [evs|]; [|done]. cbn.
    by rewrite <- (assoc_L (++)).
  - rewrite filter_cons_False by (by rewrite Hrow).
    unfold row_of_match in Hrow. apply andb_false_iff in Hrow as [Hle|Hmid].
    + apply Nat.leb_gt in Hle. by rewrite (proj2 (Nat.ltb_lt _ _) Hle).
    + rewrite Hmid. cbn [negb]. by destruct (length r <? 2)%nat.
Qed.

(** [get_stats_for_match] reads one event from every row below the first
    that has at least two cells and the asked match id in its second; when
    it returns, it returns as many events as there are such rows, each with
    the asked match id, all nine keys, and an [int] for its delta. *)
Theorem get_stats_for_match_rows (mid : string) (rows : list (list string))
    (evs : list Event) :
  get_stats_for_match_from mid rows = Some evs →
  get_stats_for_match_from mid rows
  = mapM (λ r, event_of_row mid r <$> row_delta r)
      (filter (λ r, row_of_match mid r = true) (drop 1 rows)) ∧
  length evs = length (filter (λ r, row_of_match mid r = true) (drop 1 rows)) ∧
  Forall (λ e, e !! "match_id" = Some (VStr mid) ∧ dom e = event_keys ∧
               ∃ z, e !! "delta" = Some (VInt z)) evs.
Proof.
  assert (get_stats_for_match_from mid rows
          = mapM (λ r, event_of_row mid r <$> row_delta r)
              (filter (λ r, row_of_match mid r = true) (drop 1 rows))) as Heq.
  { unfold get_stats_for_match_from.
    destruct (length rows <=? 1)%nat eqn:Hlen.
    - apply Nat.leb_le in Hlen.
      by destruct rows as [|? [|? ?]]; simpl in *; try lia.
    - rewrite stats_loop_mapM. by destruct (mapM _ _). }
  intros Hevs. split; [done|]. rewrite Heq in Hevs.
  apply mapM_Some in Hevs. split.
  - symmetry. by eapply Forall2_length.
  - eapply Forall2_Forall_r; [exact Hevs|]. apply Forall_true.
    intros r e He. destruct (row_delta r) as [z|]; [|done].
    injection He as <-. split; [done|]. split; [done|]. by exists z.
Qed.

(** A row of the asked match whose delta cell is missing, blank, or no
    number reads as an event with delta 1. *)
Theorem get_stats_for_match_default_delta (mid : string)
    (header r : list string) :
  row_of_match mid r = true →
  length r ≤ 7 ∨ py_strip (cell r 7) = "" ∨
    int_of_float_str (cell r 7) = FloatValueError →
  get_stats_for_match_from mid [header; r] = Some [event_of_row mid r 1].
Proof.
  intros Hrow Hdelta.
  assert (row_delta r = Some 1%Z) as Hone.
  { unfold row_delta. destruct Hdelta as [Hlen|[Hblank|Herr]].
    - destruct (7 <? length r)%nat eqn:E; [apply Nat.ltb_lt in E; lia|done].
    - rewrite Hblank. by rewrite andb_false_r.
    - rewrite Herr. by destruct (_ && _). }
  unfold get_stats_for_match_from. cbn [length Nat.leb drop].
  rewrite stats_loop_mapM, filter_cons_True by done.
  cbn [mapM]. rewrite Hone. done.
Qed.

(** An infinite delta is not caught: in a row of the asked match it makes
    the whole read fail, in a row of another match it goes unnoticed. *)
Theorem get_stats_for_match_overflow (mid : string) (header r : list string)
    (rest : list (list string)) :
  7 < length r →
  py_strip (cell r 7) ≠ "" →
  int_of_float_str (cell r 7) = FloatOverflow →
  get_stats_for_match_from mid (header :: r :: rest)
  = if row_of_match mid r then None
    else get_stats_for_match_from mid (header :: rest).
Proof.
  intros Hlen Hblank Hover.
  assert (row_delta r = None) as Hnone.
  { unfold row_delta. rewrite (proj2 (Nat.ltb_lt _ _) Hlen), Hover.
    by destruct (String.eqb_spec (py_strip (cell r 7)) ""). }
  assert (∀ l, get_stats_for_match_from mid (header :: l)
               = stats_loop mid l []) as Hloop.
  { intros [|? ?]; [done|]. unfold get_stats_for_match_from. done. }
  rewrite !Hloop, !stats_loop_mapM.
  destruct (row_of_match mid r) eqn:Hrow.
  - rewrite filter_cons_True by done. cbn [mapM]. by rewrite Hnone.
  - by rewrite filter_cons_False by (by rewrite Hrow).
Qed.


(** ** google_io.py: the worksheets *)

(** Steps through the sequencing in hypothesis [H], one call at a time. *)
Ltac bind_in H :=
  rewrite bind_run in H;
  match type of H with
  | context [match ?m ?w0 with _ => _ end] =>
      destruct (m w0) as [[?| |?] ?] eqn:?; try done
  end.

Lemma spreadsheet_cached (w : World) :
  spreadsheet_cache (caches w) = true → _get_stats_spreadsheet w = (Ret (), w).
Proof.
  intros H. unfold _get_stats_spreadsheet. rewrite bind_run. cbn [get_caches].
  by rewrite H.
Qed.

Lemma spreadsheet_cache_after (w w1 : World) (o : outcome ()) :
  _get_stats_spreadsheet w = (o, w1) →
  spreadsheet_cache (caches w1)
  = match o with Ret _ => true | _ => false end ∧ o ≠ Rerun.
Proof.
  intros H.
  unfold _get_stats_spreadsheet in H. rewrite bind_run in H.
  cbn [get_caches] in H.
  destruct (spreadsheet_cache (caches w)) eqn:Hcache.
  { injection H as <- <-. done. }
  assert (keeps (λ w, spreadsheet_cache (caches w)) load_config) as Hlc
    by (unfold load_config; frame).
  assert (keeps (λ w, spreadsheet_cache (caches w)) get_gsheet_client) as Hgc
    by (unfold get_gsheet_client; frame).
  assert (∀ c, keeps (λ w, spreadsheet_cache (caches w)) (request c)) as Hrq
    by (intros c; frame).
  pose proof (load_config_no_rerun w) as Hn1. specialize (Hlc w).
  rewrite bind_run in H.
  destruct (load_config w) as [[cfg| |e] w2]; simpl in *;
    [|done|injection H as <- <-; by rewrite Hlc].
  pose proof (get_gsheet_client_no_rerun w2) as Hn2. specialize (Hgc w2).
  rewrite bind_run in H.
  destruct (get_gsheet_client w2) as [[[]| |e] w3]; simpl in *;
    [|done|injection H as <- <-; by rewrite Hgc, Hlc].
  rewrite bind_run in H. unfold subscript in H.
  destruct (cfg !! "stats_sheet_id") as [key|];
    [|injection H as <- <-; by rewrite Hgc, Hlc].
  cbn [mret M_ret] in H. rewrite bind_run in H.
  specialize (Hrq (OpenByKey key) w3).
  assert ((request (OpenByKey key) w3).1 ≠ Rerun) as Hn3
    by (unfold request; by repeat case_match).
  destruct (request (OpenByKey key) w3) as [[[]| |e] w4]; simpl in *;
    [|done|injection H as <- <-; by rewrite Hrq, Hgc, Hlc].
  injection H as <- <-. done.
Qed.

(** The stats spreadsheet is opened once: after a call that returned, every
    further call returns at once, with no request and the world untouched; a
    call that raised has cached nothing. *)
Theorem spreadsheet_opened_once (w w1 : World) (o : outcome ()) :
  _get_stats_spreadsheet w = (o, w1) →
  match o with
  | Ret _ => spreadsheet_cache (caches w1) = true ∧
             _get_stats_spreadsheet w1 = (Ret (), w1)
  | Rerun => False
  | Raise _ => spreadsheet_cache (caches w1) = false
  end.
Proof.
  intros H.
  destruct (spreadsheet_cache_after w w1 o H) as [Hc Ho].
  destruct o as [[]| |e]; [|done|done].
  split; [done|]. by apply spreadsheet_cached.
Qed.

Lemma _get_stats_spreadsheet_sheets : keeps sheets _get_stats_spreadsheet.
Proof.
  unfold _get_stats_spreadsheet, load_config, get_gsheet_client. frame.
Qed.

(** What [get_stats_worksheet] reads as the header. *)
Lemma get_stats_worksheet_unfold (w : World) :
  get_stats_worksheet w
  = match _get_stats_spreadsheet w with
    | (Ret _, w1) =>
        match request GetSheet1 w1 with
        | (Ret _, w2) =>
            match request (RowValues Sheet1 1) w2 with
            | (Ret _, w3) =>
                let header := default [] (stats_sheet (sheets w3) !! 0) in
                let starts_right :=
                  bool_decide (take 2 header = [VStr "Timestamp"; VStr "MatchID"]) in
                let empty := bool_decide (header = []) in
                (when (empty || negb starts_right || (length header <? 7)%nat)
                      (ws_update_row1 Sheet1 "A1:I1" expected_header);;
                 when (negb empty && starts_right
                       && (length header <? length expected_header)%nat)
                      (ws_update_row1 Sheet1 "A1:I1" expected_header);;
                 mret Sheet1) w3
            | (Rerun, w3) => (Rerun, w3)
            | (Raise e, w3) => (Raise e, w3)
            end
        | (Rerun, w2) => (Rerun, w2)
        | (Raise e, w2) => (Raise e, w2)
        end
    | (Rerun, w1) => (Rerun, w1)
    | (Raise e, w1) => (Raise e, w1)
    end.
Proof.
  unfold get_stats_worksheet. rewrite bind_run.
  destruct (_get_stats_spreadsheet w) as [[[]| |e] w1]; [|done..].
  rewrite bind_run. destruct (request GetSheet1 w1) as [[[]| |e] w2]; [|done..].
  rewrite bind_run. unfold ws_row_values at 1. rewrite bind_run.
  destruct (request (RowValues Sheet1 1) w2) as [[[]| |e] w3]; [|done..].
  reflexivity.
Qed.

Lemma request_sheets (c : api_call) : keeps sheets (request c).
Proof. frame. Qed.

Lemma ws_update_row1_run (vals : row) (w : World) :
  let r := ws_update_row1 Sheet1 "A1:I1" vals w in
  r.1 ≠ Rerun ∧
  data_rows_of (sheets r.2) = data_rows_of (sheets w) ∧
  matches_sheet (sheets r.2) = matches_sheet (sheets w) ∧
  (stats_sheet (sheets r.2) = stats_sheet (sheets w) ∨
   stats_sheet (sheets r.2)
   = (vals ++ drop (length vals) (default [] (stats_sheet (sheets w) !! 0)))
       :: data_rows_of (sheets w)) ∧
  (r.1 = Ret () →
   stats_sheet (sheets r.2)
   = (vals ++ drop (length vals) (default [] (stats_sheet (sheets w) !! 0)))
       :: data_rows_of (sheets w)).
Proof.
  unfold ws_update_row1, request, modify_sheets, data_rows_of.
  rewrite bind_run.
  destruct (faults w) as [|[e|] fs]; cbn;
    destruct (stats_sheet (sheets w)) as [|h rest] eqn:Hs; cbn;
    rewrite ?Hs; cbn; rewrite ?drop_nil, ?(right_id_L [] (++));
    repeat split; try done; auto.
Qed.


Lemma header_accepted_updated (sh : Sheets) (x : row) (rest : list row) :
  stats_sheet sh = (expected_header ++ x) :: rest → header_accepted sh.
Proof.
  intros H. exists (expected_header ++ x), rest. split; [done|].
  split; [done|]. rewrite length_app. simpl. lia.
Qed.

(** The header check of [get_stats_worksheet], after the header was read
    from a sheet [sh]: it leaves the rows below the first and the 'Matches'
    tab alone, and if it returns, the first row is one it accepts. *)
Lemma header_check_run (w : World) :
  let header := default [] (stats_sheet (sheets w) !! 0) in
  let starts_right :=
    bool_decide (take 2 header = [VStr "Timestamp"; VStr "MatchID"]) in
  let empty := bool_decide (header = []) in
  let r := (when (empty || negb starts_right || (length header <? 7)%nat)
                 (ws_update_row1 Sheet1 "A1:I1" expected_header);;
            when (negb empty && starts_right
                  && (length header <? length expected_header)%nat)
                 (ws_update_row1 Sheet1 "A1:I1" expected_header);;
            mret Sheet1) w in
  data_rows_of (sheets r.2) = data_rows_of (sheets w) ∧
  matches_sheet (sheets r.2) = matches_sheet (sheets w) ∧
  (∀ ws, r.1 = Ret ws → ws = Sheet1 ∧ header_accepted (sheets r.2)) ∧
  (header_accepted (sheets w) → r = (Ret Sheet1, w)).
Proof.
  intros header starts_right empty.
  assert (header_accepted (sheets w) →
          empty || negb starts_right || (length header <? 7)%nat = false ∧
          negb empty && starts_right
            && (length header <? length expected_header)%nat = false) as Hok.
  { intros (h & rest & Hs & Hstart & Hlen).
    subst header starts_right empty. rewrite Hs.
    change (default [] ((h :: rest) !! 0)) with h.
    rewrite (bool_decide_eq_true_2 _ Hstart).
    rewrite bool_decide_eq_false_2 by (intros ->; simpl in Hlen; lia).
    rewrite (proj2 (Nat.ltb_ge _ _)) by lia.
    rewrite (proj2 (Nat.ltb_ge _ _)) by (simpl; lia). done. }
  assert (empty || negb starts_right || (length header <? 7)%nat = false →
          negb empty && starts_right
            && (length header <? length expected_header)%nat = false →
          header_accepted (sheets w)) as Hback.
  { subst header starts_right empty. intros H1 H2.
    apply orb_false_iff in H1 as [[He Hs]%orb_false_iff H7].
    apply negb_false_iff in Hs. rewrite He, Hs in H2.
    change (negb false && true) with true in H2. rewrite andb_true_l in H2.
    apply bool_decide_eq_false in He. apply bool_decide_eq_true in Hs.
    apply Nat.ltb_ge in H2. change (length expected_header) with 9 in H2.
    destruct (stats_sheet (sheets w)) as [|h rest] eqn:Hsheet; [done|].
    exists h, rest. done. }
  destruct (empty || negb starts_right || (length header <? 7)%nat) eqn:H1;
    destruct (negb empty && starts_right
              && (length header <? length expected_header)%nat) eqn:H2;
    cbn [when]; cbv zeta;
    (* both updates, the first only, the second only, none *)
    [ rewrite bind_run;
      destruct (ws_update_row1_run expected_header w) as (Hn & Hd & Hm & _ & Hs);
      destruct (ws_update_row1 Sheet1 "A1:I1" expected_header w)
        as [[[]| |e] w1]; cbn [fst snd] in *; [|done|];
      [ rewrite bind_run;
        destruct (ws_update_row1_run expected_header w1)
          as (Hn' & Hd' & Hm' & _ & Hs');
        destruct (ws_update_row1 Sheet1 "A1:I1" expected_header w1)
          as [[[]| |e'] w2]; cbn [fst snd] in *; [|done|]; cbn;
        rewrite ?Hd', ?Hm' | ]
    | rewrite bind_run;
      destruct (ws_update_row1_run expected_header w) as (Hn & Hd & Hm & _ & Hs);
      destruct (ws_update_row1 Sheet1 "A1:I1" expected_header w)
        as [[[]| |e] w1]; cbn [fst snd] in *; [|done|]; cbn
    | rewrite bind_run; cbn [mret M_ret]; rewrite bind_run;
      destruct (ws_update_row1_run expected_header w) as (Hn & Hd & Hm & _ & Hs);
      destruct (ws_update_row1 Sheet1 "A1:I1" expected_header w)
        as [[[]| |e] w1]; cbn [fst snd] in *; [|done|]; cbn
    | cbn ];
    repeat split; try done; try congruence;
    try (by eapply header_accepted_updated; eauto);
    try (by intros [? ?]%Hok);
    try (by apply Hback);
    try (match goal with
         | H : _ = Ret _ |- _ = Sheet1 =>
             cbv [mbind M_bind mret M_ret fst snd] in H; congruence
         end).
Qed.


Lemma get_stats_worksheet_sheets (w : World) :
  let r := get_stats_worksheet w in
  data_rows_of (sheets r.2) = data_rows_of (sheets w) ∧
  matches_sheet (sheets r.2) = matches_sheet (sheets w) ∧
  (∀ ws, r.1 = Ret ws → ws = Sheet1 ∧ header_accepted (sheets r.2)) ∧
  (header_accepted (sheets w) → sheets r.2 = sheets w).
Proof.
  cbv zeta. rewrite get_stats_worksheet_unfold.
  pose proof (_get_stats_spreadsheet_sheets w) as H1.
  destruct (_get_stats_spreadsheet w) as [[[]| |e] w1]; cbn [fst snd] in *;
    [|rewrite H1; by repeat split..].
  pose proof (request_sheets GetSheet1 w1) as H2.
  destruct (request GetSheet1 w1) as [[[]| |e] w2]; cbn [fst snd] in *;
    [|rewrite H2, H1; by repeat split..].
  pose proof (request_sheets (RowValues Sheet1 1) w2) as H3.
  destruct (request (RowValues Sheet1 1) w2) as [[[]| |e] w3];
    cbn [fst snd] in *; [|rewrite H3, H2, H1; by repeat split..].
  assert (sheets w3 = sheets w) as Hw3 by (by rewrite H3, H2, H1).
  destruct (header_check_run w3) as (Hd & Hm & Hret & Hid).
  cbv zeta in Hd, Hm, Hret, Hid.
  split; [by rewrite Hd, Hw3|]. split; [by rewrite Hm, Hw3|]. split; [done|].
  intros Hacc. rewrite <- Hw3 in Hacc. by rewrite (Hid Hacc).
Qed.

(** [get_stats_worksheet] writes to the header row only: whatever its
    outcome, the rows below the first and the 'Matches' tab are as before and
    no append request was issued; when it returns, it returns the first
    sheet, whose first row then starts with Timestamp, MatchID and has at
    least nine cells. *)
Theorem get_stats_worksheet_header_only (w : World) :
  let r := get_stats_worksheet w in
  data_rows_of (sheets r.2) = data_rows_of (sheets w) ∧
  matches_sheet (sheets r.2) = matches_sheet (sheets w) ∧
  appends (new_requests w r.2) = [] ∧
  (∀ ws, r.1 = Ret ws → ws = Sheet1 ∧ header_accepted (sheets r.2)).
Proof.
  destruct (get_stats_worksheet_sheets w) as (Hd & Hm & Hret & _).
  destruct (get_stats_worksheet_requests w) as (l & Hl & Hquiet).
  cbv zeta in *. split; [done|]. split; [done|]. split; [|done].
  unfold new_requests. rewrite Hl, drop_app_length. by apply appends_quiet.
Qed.

Lemma get_stats_worksheet_no_update :
  ∀ w, header_accepted (sheets w) →
       ∃ l, api_log (get_stats_worksheet w).2 = api_log w ++ l ∧
            Forall (λ c, is_update c = false) l.
Proof.
  intros w Hacc. rewrite get_stats_worksheet_unfold.
  assert (requests_only (λ c, is_update c = false) _get_stats_spreadsheet) as Hr1
    by (unfold _get_stats_spreadsheet, load_config, get_gsheet_client; frame).
  destruct (Hr1 w) as (l1 & Hl1 & Hq1).
  pose proof (_get_stats_spreadsheet_sheets w) as H1.
  destruct (_get_stats_spreadsheet w) as [[[]| |e] w1]; cbn [fst snd] in *;
    [|exists l1; split; [exact Hl1 | exact Hq1]..].
  destruct (requests_only_request (λ c, is_update c = false) GetSheet1 eq_refl w1)
    as (l2 & Hl2 & Hq2).
  pose proof (request_sheets GetSheet1 w1) as H2.
  destruct (request GetSheet1 w1) as [[[]| |e] w2]; cbn [fst snd] in *;
    [|exists (l1 ++ l2); rewrite Hl2, Hl1, <- (assoc_L (++)); split;
        [done | by apply Forall_app]..].
  destruct (requests_only_request (λ c, is_update c = false)
              (RowValues Sheet1 1) eq_refl w2) as (l3 & Hl3 & Hq3).
  pose proof (request_sheets (RowValues Sheet1 1) w2) as H3.
  destruct (request (RowValues Sheet1 1) w2) as [[[]| |e] w3];
    cbn [fst snd] in *;
    [|exists (l1 ++ l2 ++ l3); rewrite Hl3, Hl2, Hl1, <- !(assoc_L (++)); split;
        [done | apply Forall_app; split; [done | by apply Forall_app]]..].
  assert (header_accepted (sheets w3)) as Hacc3 by (by rewrite H3, H2, H1).
  destruct (header_check_run w3) as (_ & _ & _ & Hid). cbv zeta in Hid.
  cbv zeta. rewrite (Hid Hacc3). cbn [snd].
  exists (l1 ++ l2 ++ l3). rewrite Hl3, Hl2, Hl1, <- !(assoc_L (++)). split;
    [done | apply Forall_app; split; [done | by apply Forall_app]].
Qed.

(** The header check settles: on a sheet whose first row starts with
    Timestamp, MatchID and has at least nine cells, whatever its other cells
    say, [get_stats_worksheet] changes nothing in the spreadsheet and issues
    no update; the sheet a call that returned leaves is such a sheet. *)
Theorem get_stats_worksheet_settles (w : World) :
  header_accepted (sheets w) →
  let r := get_stats_worksheet w in
  sheets r.2 = sheets w ∧
  Forall (λ c, is_update c = false) (new_requests w r.2) ∧
  (∀ ws, r.1 = Ret ws → header_accepted (sheets r.2)).
Proof.
  intros Hacc. cbv zeta.
  destruct (get_stats_worksheet_sheets w) as (_ & _ & Hret & Hid).
  destruct (get_stats_worksheet_no_update w Hacc) as (l & Hl & Hq).
  cbv zeta in *. split; [by apply Hid|]. split.
  - unfold new_requests. by rewrite Hl, drop_app_length.
  - intros ws Hws. by apply (Hret ws).
Qed.


Lemma mapM_outcome_length {A B} (f : A → outcome B) (l : list A) (k : list B) :
  mapM f l = Ret k → length k = length l.
Proof.
  revert k. induction l as [|a l IH]; intros k; simpl.
  { by intros [= <-]. }
  destruct (f a) as [b| |e]; simpl; [|done..].
  destruct (mapM f l) as [k'| |e]; simpl; [|done..].
  intros [= <-]. simpl. by rewrite (IH k').
Qed.

Lemma ws_append_rows_run (rows : list row) (w w1 : World) :
  ws_append_rows Sheet1 rows w = (Ret (), w1) →
  stats_sheet (sheets w1) = stats_sheet (sheets w) ++ rows ∧
  matches_sheet (sheets w1) = matches_sheet (sheets w).
Proof.
  unfold ws_append_rows, request, modify_sheets. rewrite bind_run.
  destruct (faults w) as [|[e|] fs]; [|done|]; by intros [= <-].
Qed.

Lemma write_stats_rows_ret (evs : list Event) (w w1 : World) :
  write_stats_rows evs w = (Ret (), w1) →
  ∃ rows,
    mapM _event_to_row evs = Ret rows ∧
    length rows = length evs ∧
    data_rows_of (sheets w1) = data_rows_of (sheets w) ++ rows ∧
    matches_sheet (sheets w1) = matches_sheet (sheets w).
Proof.
  unfold write_stats_rows. destruct evs as [|ev evs].
  { intros [= <-]. exists []. by rewrite (right_id_L [] (++)). }
  set (all := ev :: evs). clearbody all. intros H.
  rewrite bind_run in H.
  destruct (get_stats_worksheet_sheets w) as (Hd & Hm & Hret & _).
  cbv zeta in Hd, Hm, Hret.
  destruct (get_stats_worksheet w) as [[ws| |e] w2]; [|done..].
  cbn [fst snd] in *. destruct (Hret ws eq_refl) as [-> (h & rest & Hs & _)].
  rewrite bind_run in H. unfold lift in H.
  destruct (mapM _event_to_row all) as [rows| |e] eqn:Hrows; [|done..].
  apply ws_append_rows_run in H as [Hs1 Hm1].
  exists rows. split; [done|]. split; [by eapply mapM_outcome_length|].
  split; [|by rewrite Hm1, Hm].
  rewrite <- Hd. unfold data_rows_of. by rewrite Hs1, Hs.
Qed.

(** A batch write that returns has added one row per event below the rows
    that were there, in the order of the events, and has left the earlier
    data rows and the 'Matches' tab as they were. *)
Theorem write_stats_rows_appends (evs : list Event) (w w1 : World) :
  write_stats_rows evs w = (Ret (), w1) →
  ∃ rows,
    mapM _event_to_row evs = Ret rows ∧
    length rows = length evs ∧
    data_rows_of (sheets w1) = data_rows_of (sheets w) ++ rows ∧
    matches_sheet (sheets w1) = matches_sheet (sheets w).
Proof. apply write_stats_rows_ret. Qed.

(** A batch that holds an event whose delta cannot be made an [int] is not
    sent: the write raises, no append request is issued, and the data rows
    are as before. *)
Theorem write_stats_rows_bad_delta (evs : list Event) (w : World) (e : exn) :
  mapM _event_to_row evs = Raise e →
  let r := write_stats_rows evs w in
  (∃ e', r.1 = Raise e') ∧
  appends (new_requests w r.2) = [] ∧
  data_rows_of (sheets r.2) = data_rows_of (sheets w).
Proof.
  intros Hbad. assert (evs ≠ []) as Hne by (by intros ->).
  destruct (write_stats_rows_run evs w Hne) as (_ & l & Hl & Hcases).
  cbv zeta in *.
  destruct Hcases as [(e' & He' & Hlog)|(rows & Hrows & _)];
    [|by rewrite Hbad in Hrows].
  split; [by exists e'|]. split.
  { unfold new_requests. rewrite Hlog, drop_app_length. by apply appends_quiet. }
  clear He' Hlog. unfold write_stats_rows. destruct evs as [|ev evs]; [done|].
  set (all := ev :: evs) in *. clearbody all. rewrite bind_run.
  destruct (get_stats_worksheet_sheets w) as (Hd & _). cbv zeta in Hd.
  destruct (get_stats_worksheet w) as [[ws| |e''] w2]; cbn [fst snd] in *;
    [|done..].
  rewrite bind_run. unfold lift. by rewrite Hbad.
Qed.

(** Writing one event with [write_stats_row] ends as writing the list of
    that one event with [write_stats_rows] does, and leaves the same
    spreadsheet. *)
Theorem write_stats_row_as_batch (ev : Event) (w : World) :
  (write_stats_row ev w).1 = (write_stats_rows [ev] w).1 ∧
  sheets (write_stats_row ev w).2 = sheets (write_stats_rows [ev] w).2.
Proof.
  unfold write_stats_row, write_stats_rows. rewrite !bind_run.
  destruct (get_stats_worksheet w) as [[ws| |e] w2]; [|done..].
  rewrite !bind_run. unfold lift. cbn [mapM].
  destruct (_event_to_row ev) as [r| |e]; [|done..]. cbn.
  unfold ws_append_row, ws_append_rows, request, modify_sheets.
  rewrite !bind_run. by destruct (faults w2) as [|[e|] fs].
Qed.


Lemma request_ret (c : api_call) (w w1 : World) (o : outcome ()) :
  request c w = (o, w1) → sheets w1 = sheets w ∧ session w1 = session w.
Proof.
  unfold request. by destruct (faults w) as [|[e|] fs]; intros [= <- <-].
Qed.

(** [append_match_record], when it returns, has put the four cells of the
    match in a new last row of the 'Matches' tab, below the rows that were
    there, or below a fresh header row when the tab had to be made; the
    stats sheet is as before. However it ends, the session is untouched. *)
Theorem append_match_record_appends (m : Match) (w w1 : World) (o : outcome ()) :
  append_match_record m w = (o, w1) →
  session w1 = session w ∧
  (o = Ret () →
   matches_sheet (sheets w1)
   = Some (matches_rows_found (sheets w) ++ [VStr <$> match_cells m]) ∧
   stats_sheet (sheets w1) = stats_sheet (sheets w)).
Proof.
  intros H. split.
  { pose proof (append_match_record_session m w) as Hs. by rewrite H in Hs. }
  intros ->. unfold append_match_record, get_matches_worksheet in H.
  rewrite !bind_run in H.
  pose proof (_get_stats_spreadsheet_sheets w) as H1.
  destruct (_get_stats_spreadsheet w) as [[[]| |e] w2]; [|done..].
  cbn [fst snd] in H1. rewrite ?bind_run in H.
  destruct (request (GetWorksheet "Matches") w2) as [[[]| |e] w3] eqn:H2;
    [|done..].
  apply request_ret in H2 as [H2 _]. rewrite ?bind_run in H.
  cbn [get_sheets] in H.
  unfold matches_rows_found. rewrite <- H1, <- H2.
  destruct (matches_sheet (sheets w3)) as [rows|] eqn:Hm.
  - cbn [mret M_ret] in H. unfold ws_append_row in H. rewrite ?bind_run in H.
    destruct (request (AppendRow MatchesTab _) w3) as [[[]| |e] w4] eqn:H3;
      [|done..].
    apply request_ret in H3 as [H3 _]. cbn in H. injection H as <-.
    cbn. by rewrite H3, Hm.
  - rewrite ?bind_run in H.
    destruct (request (AddWorksheet "Matches") w3) as [[[]| |e] w4] eqn:H3;
      [|done..].
    apply request_ret in H3 as [H3 _]. rewrite ?bind_run in H.
    cbn [modify_sheets] in H.
    unfold ws_update_row1 in H. rewrite ?bind_run in H.
    destruct (request (UpdateRange MatchesTab _ _) _) as [[[]| |e] w5] eqn:H4;
      [|done..].
    apply request_ret in H4 as [H4 _]. cbn [modify_sheets mret M_ret] in H.
    unfold ws_append_row in H. rewrite ?bind_run in H.
    destruct (request (AppendRow MatchesTab _) _) as [[[]| |e] w6] eqn:H5;
      [|done..].
    apply request_ret in H5 as [H5 _]. cbn in H. injection H as <-.
    cbn. rewrite H5. cbn. rewrite H4. cbn. by rewrite H3.
Qed.

(** ** ui_app.py: creating a match *)

(** "Opret kamp" writes the match to the index first: when that raises, the
    session is what it was; when it returns, the wizard is on step 2 with the
    new match current, no events, no selection and the first half, and the
    match players of before. *)
Theorem step_create_match_run (team : string) (d : date) (opp : string)
    (w : World) :
  let m := create_match d team opp in
  let a := append_match_record m w in
  let r := step_create_match team d opp true w in
  match a.1 with
  | Ret _ =>
      r.1 = Rerun ∧
      session r.2
      = {| wizard_step := 2;
           current_match := Some m;
           match_players := match_players (session w);
           events := [];
           selected_event := None;
           selected_player := None;
           current_half := 1 |} ∧
      sheets r.2 = sheets a.2 ∧ api_log r.2 = api_log a.2
  | _ => r = a ∧ session r.2 = session w
  end.
Proof.
  cbv zeta. unfold step_create_match. rewrite bind_run.
  pose proof (append_match_record_session (create_match d team opp) w) as Hs.
  destruct (append_match_record (create_match d team opp) w)
    as [[[]| |e] w1]; cbn [fst snd] in *; [|done..].
  rewrite <- Hs. by repeat split.
Qed.


(** ** ui_app.py: the player lookup *)

Lemma head_filter_None {A} (P : A → Prop) `{∀ x, Decision (P x)} (l : list A) :
  head (filter P l) = None ↔ ∀ x, x ∈ l → ¬ P x.
Proof.
  induction l as [|a l IH].
  { split; [|done]. intros _ x Hx. by apply elem_of_nil in Hx. }
  destruct (decide (P a)) as [Ha|Ha].
  - rewrite filter_cons_True by done. split; [done|].
    intros Hall. destruct (Hall a); [left|done].
  - rewrite filter_cons_False by done. rewrite IH. split.
    + intros Hall x [->|Hx]%elem_of_cons; auto.
    + intros Hall x Hx. apply Hall. by right.
Qed.

Lemma head_filter_Some {A} (P : A → Prop) `{∀ x, Decision (P x)} (l : list A)
    (a : A) :
  head (filter P l) = Some a →
  P a ∧ ∃ i, l !! i = Some a ∧ ∀ j b, j < i → l !! j = Some b → ¬ P b.
Proof.
  induction l as [|b l IH]; [done|].
  destruct (decide (P b)) as [Hb|Hb].
  - rewrite filter_cons_True by done. intros [= <-]. split; [done|].
    exists 0. split; [done|]. intros j c Hj. lia.
  - rewrite filter_cons_False by done. intros [Ha (i & Hi & Hfirst)]%IH.
    split; [done|]. exists (S i). split; [done|].
    intros [|j] c Hj; simpl; [by intros [= <-]|].
    apply Hfirst. lia.
Qed.

Lemma find_player_none (players : list Player) (nm : option string) :
  find_player players nm = None ↔
  truthy nm = false ∨ ∀ p, p ∈ players → Some (name p) ≠ nm.
Proof.
  unfold find_player. destruct (truthy nm) eqn:Htruthy; cbn [negb].
  - rewrite head_filter_None. split; [by right|]. by intros [|].
  - split; [by left|done].
Qed.

(** [find_player] returns the first player of the list that has the given
    name; it returns nothing exactly when the name is [None] or empty, or no
    player of the list has it. *)
Theorem find_player_first (players : list Player) (nm : option string) :
  (∀ p, find_player players nm = Some p →
        nm = Some (name p) ∧ name p ≠ "" ∧
        ∃ i, players !! i = Some p ∧
             ∀ j q, j < i → players !! j = Some q → name q ≠ name p) ∧
  (find_player players nm = None ↔
   truthy nm = false ∨ ∀ p, p ∈ players → Some (name p) ≠ nm).
Proof.
  split; [|apply find_player_none].
  unfold find_player. destruct (truthy nm) eqn:Htruthy; cbn [negb]; [|done].
  intros p [Hp (i & Hi & Hfirst)]%head_filter_Some.
  split; [done|]. split.
  { subst nm. simpl in Htruthy. by destruct (String.eqb_spec (name p) ""). }
  exists i. split; [done|]. intros j q Hj Hq Hsame.
  apply (Hfirst j q Hj Hq). by rewrite Hsame.
Qed.

Lemma find_player_member (players : list Player) (p : Player) :
  p ∈ players →
  truthy (Some (name p)) = true →
  is_Some (find_player players (Some (name p))).
Proof.
  intros Hin Htruthy.
  destruct (find_player players (Some (name p))) as [q|] eqn:Hfind; [done|].
  apply find_player_none in Hfind as [Hf|Hnone].
  - congruence.
  - by destruct (Hnone p Hin).
Qed.


(** ** ui_app.py: what a press on the Record page can do *)

Lemma record_step_refl (s : Session) : record_step s s.
Proof.
  repeat split; auto. exists []. by rewrite (right_id_L [] (++)).
Qed.

Lemma meta_event_typed t h mid event v :
  wizard_event (meta_event_at t h mid event v).
Proof. split; [by eexists | right; by exists 0%Z]. Qed.

Lemma registered_event_typed p m w : wizard_event (registered_event p m w).
Proof. split; [by eexists | by left]. Qed.

Lemma end_metas_typed mid players f w :
  Forall wizard_event (end_metas mid players f w).
Proof. unfold end_metas. repeat (constructor; [apply meta_event_typed|]). constructor. Qed.

Ltac record_step_by_events :=
  repeat split; auto;
  eexists; (split; [reflexivity|]);
  repeat match goal with
         | |- Forall _ (_ :: _) => constructor
         | |- Forall _ [] => constructor
         end;
  auto using meta_event_typed, registered_event_typed, end_metas_typed.

Lemma end_dialog_session (mid : string) (players : list Player) (f : end_form)
    (w : World) :
  let s := session w in
  let s' := session (end_dialog mid players f w).2 in
  s' = s ∨
  s' = set_events (events s ++ end_metas mid players f w) s ∨
  s' = set_wizard_step 4 (set_events (events s ++ end_metas mid players f w) s).
Proof.
  cbv zeta. destruct (ef_save f) eqn:Hsave.
  - pose proof (write_stats_rows_session
                  (events (session (before_flush mid players f w)))
                  (before_flush mid players f w)) as Hkeep.
    destruct (end_dialog_outcome mid players f w Hsave) as [[_ ->]|(e & _ & ->)];
      cbn [fst snd with_session session]; rewrite Hkeep; auto.
  - left. unfold end_dialog. by rewrite Hsave.
Qed.

Lemma step_record_step (c : record_click) (w : World) :
  record_step (session w) (session (step_record c w).2).
Proof.
  destruct c as [| | |f| |f|i|i].
  - apply record_step_refl.
  - repeat split; auto. exists []. by rewrite (right_id_L [] (++)).
  - repeat split; auto. exists []. by rewrite (right_id_L [] (++)).
  - unfold step_record. rewrite bind_run. cbn [get_session].
    destruct (current_match (session w)) as [m|] eqn:Hm;
      [|apply record_step_refl].
    rewrite bind_run. cbn [match_id_of mret M_ret].
    destruct (hf_save f) eqn:Hsave.
    + rewrite half_dialog_run by done. cbn [snd session with_session].
      record_step_by_events.
    + unfold half_dialog. rewrite Hsave. apply record_step_refl.
  - destruct (can_register (session w)) eqn:Hcan;
      [|rewrite register_disabled by done; apply record_step_refl].
    destruct (find_player (match_players (session w))
                (selected_player (session w))) as [p|] eqn:Hfind.
    + destruct (current_match (session w)) as [m|] eqn:Hm.
      * rewrite (register_hit w p m) by done. cbn [snd session with_session].
        record_step_by_events.
      * unfold step_record. rewrite bind_run. cbn [get_session].
        rewrite bind_run. cbn [get_session].
        unfold can_register in Hcan. rewrite Hcan, Hfind, Hm.
        apply record_step_refl.
    + rewrite register_miss by done. repeat split; auto.
      exists []. by rewrite (right_id_L [] (++)).
  - unfold step_record. rewrite bind_run. cbn [get_session].
    destruct (current_match (session w)) as [m|] eqn:Hm;
      [|apply record_step_refl].
    rewrite bind_run. cbn [match_id_of mret M_ret].
    destruct (end_dialog_session (match_id m) (match_players (session w)) f w)
      as [->|[->| ->]].
    + apply record_step_refl.
    + record_step_by_events.
    + record_step_by_events.
  - unfold step_record. rewrite bind_run. cbn [get_session].
    destruct (EVENT_TYPES !! i) as [[label code]|]; [|apply record_step_refl].
    repeat split; auto. exists []. by rewrite (right_id_L [] (++)).
  - unfold step_record. rewrite bind_run. cbn [get_session].
    destruct (match_players (session w) !! i) as [p|] eqn:Hp;
      [|apply record_step_refl].
    repeat split; auto.
    + right. right. exists p. split; [|done]. by eapply list_elem_of_lookup_2.
    + exists []. by rewrite (right_id_L [] (++)).
Qed.


(** ** ui_app.py: one script run, page by page *)

Lemma main_step (players : list Player) (ui : ui_input) (w : World) :
  let s := session w in
  let s' := session (main players ui w).2 in
  (wizard_step s = 1%Z ∧
   (s' = s ∨
    ∃ m, s' = {| wizard_step := 2; current_match := Some m;
                 match_players := match_players s; events := [];
                 selected_event := None; selected_player := None;
                 current_half := 1 |})) ∨
  (wizard_step s = 2%Z ∧
   (s' = s ∨ ∃ mp, s' = set_wizard_step 3 (set_match_players mp s))) ∨
  (wizard_step s = 3%Z ∧ record_step s s') ∨
  ((wizard_step s ≠ 1 ∧ wizard_step s ≠ 2 ∧ wizard_step s ≠ 3)%Z ∧
   (s' = s ∨ s' = defaults)).
Proof.
  cbv zeta. unfold main. rewrite bind_run. cbn [get_session].
  repeat case_bool_decide.
  - left. split; [done|].
    destruct ui as [team d opp []| | |]; auto.
    unfold step_create_match. rewrite bind_run.
    pose proof (append_match_record_session (create_match d team opp) w) as Hs.
    destruct (append_match_record _ w) as [[[]| |e] w1]; cbn [fst snd] in *;
      [|auto..].
    right. exists (create_match d team opp). by rewrite <- Hs.
  - right. left. split; [done|].
    destruct ui as [|selected []| |]; auto.
    destruct selected as [|n selected]; [by left|].
    right. by eexists.
  - right. right. left. split; [done|].
    destruct ui; try apply record_step_refl. apply step_record_step.
  - right. right. right. split; [done|].
    destruct ui as [| | |[]]; auto.
Qed.

(** The wizard moves one page at a time: a script run leaves it on the page
    it was on, or takes it from CreateMatch to SelectPlayers, from there to
    Record, from there to Summary, or from Summary back to CreateMatch; and
    a session that began with the defaults is always on one of the four. *)
Theorem wizard_moves_one_page (players : list Player) (ui : ui_input)
    (runs : list (list Player * ui_input)) (w : World) :
  wizard_move (session w) (session (main players ui w).2) ∧
  (session w = defaults →
   let step := wizard_step (session (interactions runs w)) in
   (step = 1 ∨ step = 2 ∨ step = 3 ∨ step = 4)%Z).
Proof.
  assert (∀ players ui w,
            wizard_move (session w) (session (main players ui w).2)) as Hmove.
  { clear. intros players ui w. unfold wizard_move.
    destruct (main_step players ui w)
      as [[H1 [->|[m ->]]]|[[H2 [->|[mp ->]]]|[[H3 Hr]|[Hn [->| ->]]]]];
      cbn; try lia.
    destruct Hr as (_ & _ & _ & [->|[-> _]] & _); lia. }
  split; [apply Hmove|].
  intros Hinit. cbv zeta.
  assert (∀ w, (wizard_step (session w) = 1 ∨ wizard_step (session w) = 2 ∨
                wizard_step (session w) = 3 ∨ wizard_step (session w) = 4)%Z →
               let step := wizard_step (session (interactions runs w)) in
               (step = 1 ∨ step = 2 ∨ step = 3 ∨ step = 4)%Z) as Hall.
  { clear -Hmove. unfold interactions.
    induction runs as [|[players ui] runs IH]; intros w Hw; [done|].
    apply IH. specialize (Hmove players ui w). unfold wizard_move in Hmove.
    unfold interact. cbn [fst snd]. lia. }
  apply Hall. rewrite Hinit. by left.
Qed.


Lemma session_ok_defaults : session_ok defaults.
Proof. repeat split; auto; done. Qed.

Lemma main_session_ok (players : list Player) (ui : ui_input) (w : World) :
  session_ok (session w) → session_ok (session (main players ui w).2).
Proof.
  intros (Hstep & [Hslot Hfind] & Htyped).
  destruct (main_step players ui w)
    as [[H1 [->|[m ->]]]|[[H2 [->|[mp ->]]]|[[H3 Hr]|[Hn [->| ->]]]]];
    try done; try apply session_ok_defaults.
  - repeat split; auto; done.
  - split; [cbn; auto|]. split; [|done]. split; [done|].
    cbn. by rewrite (Hslot H2).
  - destruct Hr as (_ & Hmp & Hsel & Hmove & k & Hk & Hktyped).
    split; [|split; [split|]].
    + destruct Hmove as [->|[-> _]]; auto.
    + intros H2. destruct Hmove as [Hsame|[H4 _]]; congruence.
    + rewrite Hmp. destruct Hsel as [->|[->|(p & Hp & ->)]]; [done|done|].
      by apply find_player_member.
    + rewrite Hk. by apply Forall_app.
Qed.

Lemma interactions_session_ok (runs : list (list Player * ui_input)) (w : World) :
  session_ok (session w) → session_ok (session (interactions runs w)).
Proof.
  unfold interactions. revert w.
  induction runs as [|[players ui] runs IH]; intros w Hok; simpl; [done|].
  apply IH. by apply main_session_ok.
Qed.


(** In a session that began with the defaults, Register never misses: on the
    Record page, whenever both slots are armed, the press registers one event
    for a match player who has the selected name, and clears both slots; the
    warning "Vælg spiller igen." is not shown. *)
Theorem register_always_registers (runs : list (list Player * ui_input))
    (w : World) :
  session w = defaults →
  let w' := interactions runs w in
  wizard_step (session w') = 3%Z →
  can_register (session w') = true →
  ∃ p m,
    p ∈ match_players (session w') ∧
    selected_player (session w') = Some (name p) ∧
    current_match (session w') = Some m ∧
    step_record BtnRegister w'
    = (Rerun,
       with_session
         (λ s, set_selected_player None
                 (set_selected_event None
                    (set_events (events s ++ [registered_event p m w']) s)))
         (now w').2) ∧
    warnings (step_record BtnRegister w').2 = warnings w'.
Proof.
  intros Hinit w' Hstep Hcan.
  destruct (interactions_session_ok runs w) as (_ & [_ Hfind] & _).
  { rewrite Hinit. apply session_ok_defaults. }
  fold w' in Hfind.
  destruct (recording_has_match runs w Hinit Hstep) as [m Hm]. fold w' in Hm.
  assert (truthy (selected_player (session w')) = true) as Htruthy.
  { unfold can_register in Hcan. by apply andb_true_iff in Hcan as [_ ?]. }
  destruct (Hfind Htruthy) as [p Hp].
  assert (selected_player (session w') = Some (name p) ∧
          p ∈ match_players (session w')) as [Hname Hin].
  { unfold find_player in Hp. rewrite Htruthy in Hp. cbn [negb] in Hp.
    apply head_filter_Some in Hp as [Hsame (i & Hi & _)].
    split; [done|]. by eapply list_elem_of_lookup_2. }
  exists p, m. split; [done|]. split; [done|]. split; [done|].
  by rewrite (register_hit w' p m Hcan Hp Hm).
Qed.

Lemma wizard_events_typed (evs : list Event) :
  Forall wizard_event evs → Forall delta_typed evs.
Proof. intros H. eapply Forall_impl; [exact H|]. by intros e [_ ?]. Qed.

Lemma typed_events_convert (evs : list Event) :
  Forall delta_typed evs →
  ∃ rows, mapM _event_to_row evs = Ret rows ∧ length rows = length evs.
Proof.
  induction 1 as [|ev evs Hev _ (rows & Hrows & Hlen)]; [by exists []|].
  assert (∃ r, _event_to_row ev = Ret r) as [r Hr].
  { unfold _event_to_row.
    destruct Hev as [->|[z ->]]; by eexists. }
  exists (r :: rows). cbn [mapM]. rewrite Hr, Hrows. cbn. by rewrite Hlen.
Qed.

(** The events the wizard builds always convert: in a session that began
    with the defaults every event of the list has no delta or an [int] one,
    so the row conversion of the batch write cannot raise, whatever [int]
    does with texts. *)
Theorem session_events_convert (runs : list (list Player * ui_input))
    (w : World) :
  session w = defaults →
  let evs := events (session (interactions runs w)) in
  Forall delta_typed evs ∧
  ∃ rows, mapM _event_to_row evs = Ret rows ∧ length rows = length evs.
Proof.
  intros Hinit. cbv zeta.
  destruct (interactions_session_ok runs w) as (_ & _ & Htyped).
  { rewrite Hinit. apply session_ok_defaults. }
  apply wizard_events_typed in Htyped.
  split; [done|]. by apply typed_events_convert.
Qed.


(** ** From the first page to the flush *)

Lemma bind_ret_inv {A B} (m : M A) (k : A → M B) (w w' : World) (b : B) :
  (m ≫= k) w = (Ret b, w') → ∃ a w2, m w = (Ret a, w2) ∧ k a w2 = (Ret b, w').
Proof.
  rewrite bind_run. destruct (m w) as [[a| |e] w2]; [|done..]. by exists a, w2.
Qed.

Lemma cache_stays_bind {A B} (m : M A) (k : A → M B) :
  cache_stays m → (∀ a, cache_stays (k a)) → cache_stays (m ≫= k).
Proof.
  intros Hm Hk w Hw. rewrite bind_run. specialize (Hm w Hw).
  destruct (m w) as [[a| |e] w']; cbn [fst snd] in *; [|done..].
  by apply Hk.
Qed.

Lemma cache_stays_keeps {A} (m : M A) :
  keeps (λ w, spreadsheet_cache (caches w)) m → cache_stays m.
Proof. intros Hm w Hw. by rewrite Hm. Qed.

Lemma _get_stats_spreadsheet_stays : cache_stays _get_stats_spreadsheet.
Proof. intros w Hw. by rewrite spreadsheet_cached. Qed.

Ltac stays :=
  repeat first
    [ solve [auto using _get_stats_spreadsheet_stays]
    | apply cache_stays_bind; [| intros ?]
    | solve [apply cache_stays_keeps; frame]
    | match goal with
      | |- cache_stays (match ?x with _ => _ end) => destruct x
      | |- cache_stays (when ?b _) => destruct b; cbn [when]
      end ].

Lemma get_stats_worksheet_stays : cache_stays get_stats_worksheet.
Proof. unfold get_stats_worksheet, ws_row_values, ws_update_row1. stays. Qed.

Lemma write_stats_rows_stays (evs : list Event) : cache_stays (write_stats_rows evs).
Proof.
  pose proof get_stats_worksheet_stays.
  unfold write_stats_rows, ws_append_rows. stays.
Qed.

Lemma end_dialog_stays mid players f : cache_stays (end_dialog mid players f).
Proof.
  pose proof write_stats_rows_stays.
  unfold end_dialog, make_meta_event. stays; auto.
Qed.

Lemma step_record_stays (c : record_click) : cache_stays (step_record c).
Proof.
  pose proof end_dialog_stays.
  unfold step_record, half_dialog, make_meta_event, match_id_of, build_event.
  stays; auto.
Qed.

Lemma append_match_record_stays (m : Match) : cache_stays (append_match_record m).
Proof.
  unfold append_match_record, get_matches_worksheet, ws_append_row,
    ws_update_row1.
  stays.
Qed.

Lemma main_stays (players : list Player) (ui : ui_input) :
  cache_stays (main players ui).
Proof.
  pose proof step_record_stays. pose proof append_match_record_stays.
  unfold main, step_create_match, step_select_players, step_summary.
  apply cache_stays_bind; [stays|]. intros s.
  repeat case_bool_decide; destruct ui as [? ? ? []|? []| |[]]; stays; auto.
Qed.

Lemma append_match_record_opens (m : Match) (w w1 : World) :
  append_match_record m w = (Ret (), w1) →
  spreadsheet_cache (caches w1) = true.
Proof.
  unfold append_match_record, get_matches_worksheet.
  intros (ws & w2 & (u & w3 & Hopen & Hrest)%bind_ret_inv & Happend)%bind_ret_inv.
  apply spreadsheet_cache_after in Hopen as [Hopen _].
  assert (cache_stays (ws_append_row ws
            [VStr (match_id m); VStr (match_date m); VStr (team_number m);
             VStr (opponent m)])) as Hs1
    by (unfold ws_append_row; stays).
  specialize (Hs1 w2). rewrite Happend in Hs1. apply Hs1.
  match type of Hrest with
  | ?k w3 = _ => assert (cache_stays k) as Hs2
      by (unfold ws_update_row1; stays)
  end.
  specialize (Hs2 w3 Hopen). by rewrite Hrest in Hs2.
Qed.

Lemma main_sheet_known (players : list Player) (ui : ui_input) (w : World) :
  sheet_known w → sheet_known (main players ui w).2.
Proof.
  intros [Hstep|Hcache]; [|right; by apply main_stays].
  unfold main. rewrite bind_run. cbn [get_session].
  rewrite Hstep. cbn [bool_decide decide_rel]. rewrite bool_decide_eq_true_2 by done.
  destruct ui as [team d opp []| | |]; try by left.
  unfold step_create_match. rewrite bind_run.
  pose proof (append_match_record_session (create_match d team opp) w) as Hs.
  destruct (append_match_record _ w) as [[[]| |e] w1] eqn:Happend;
    cbn [fst snd] in *; [|left; by rewrite Hs..].
  right. by apply append_match_record_opens in Happend.
Qed.

Lemma interactions_sheet_known (runs : list (list Player * ui_input))
    (w : World) :
  sheet_known w → sheet_known (interactions runs w).
Proof.
  unfold interactions. revert w.
  induction runs as [|[players ui] runs IH]; intros w Hok; simpl; [done|].
  apply IH. by apply main_sheet_known.
Qed.


Lemma calm_bind {A B} (m : M A) (k : A → M B) :
  calm m → (∀ a, calm (k a)) → calm (m ≫= k).
Proof.
  intros Hm Hk w Hw. rewrite bind_run. destruct (Hm w Hw) as [Hf [a Ha]].
  destruct (m w) as [o w']; cbn [fst snd] in *. subst o. by apply Hk.
Qed.

Lemma calm_ret {A} (a : A) : calm (mret a).
Proof. intros w Hw. split; [done | by exists a]. Qed.

Lemma calm_request (c : api_call) : calm (request c).
Proof. intros w Hw. unfold request. rewrite Hw. split; [done | by exists ()]. Qed.

Lemma calm_modify_sheets (f : Sheets → Sheets) : calm (modify_sheets f).
Proof. intros w Hw. split; [done | by exists ()]. Qed.

Lemma calm_modify_session (f : Session → Session) : calm (modify_session f).
Proof. intros w Hw. split; [done | by exists ()]. Qed.

Lemma calm_get_sheets : calm get_sheets.
Proof. intros w Hw. split; [done | by eexists]. Qed.

Lemma calm_when (b : bool) (m : M unit) : calm m → calm (when b m).
Proof. destruct b; [done|]. intros _. apply calm_ret. Qed.

Ltac calm_down :=
  repeat first
    [ apply calm_bind; [| intros ?]
    | apply calm_ret
    | apply calm_request
    | apply calm_modify_sheets
    | apply calm_modify_session
    | apply calm_get_sheets
    | apply calm_when ].

(** Once the spreadsheet was opened and with no fault to come, a batch write
    of events that convert returns. *)
Lemma write_stats_rows_calm (evs : list Event) (rows : list row) (w : World) :
  mapM _event_to_row evs = Ret rows →
  spreadsheet_cache (caches w) = true →
  faults w = [] →
  (write_stats_rows evs w).1 = Ret ().
Proof.
  intros Hrows Hcache Hcalm. unfold write_stats_rows.
  destruct evs as [|ev evs]; [done|]. set (all := ev :: evs) in *.
  clearbody all.
  assert (calm (request GetSheet1;;
                header ← ws_row_values Sheet1 1;
                when (bool_decide (header = [])
                      || negb (bool_decide (take 2 header
                                            = [VStr "Timestamp"; VStr "MatchID"]))
                      || (length header <? 7)%nat)
                     (ws_update_row1 Sheet1 "A1:I1" expected_header);;
                when (negb (bool_decide (header = []))
                      && bool_decide (take 2 header
                                      = [VStr "Timestamp"; VStr "MatchID"])
                      && (length header <? length expected_header)%nat)
                     (ws_update_row1 Sheet1 "A1:I1" expected_header);;
                mret Sheet1)) as Hws
    by (unfold ws_row_values, ws_update_row1; calm_down).
  rewrite bind_run. unfold get_stats_worksheet. rewrite bind_run.
  rewrite (spreadsheet_cached w Hcache).
  destruct (Hws w Hcalm) as [Hcalm1 [ws Hret]].
  match type of Hret with
  | (?m w).1 = _ => destruct (m w) as [o w1]
  end.
  cbn [fst snd] in *. subst o.
  rewrite bind_run. unfold lift. rewrite Hrows.
  assert (calm (ws_append_rows ws rows)) as Happend
    by (unfold ws_append_rows; calm_down).
  destruct (Happend w1 Hcalm1) as [_ [[] Hdone]]. done.
Qed.

(** In a session that began with the defaults, ending the match from the
    Record page goes through whenever no request fails: the wizard moves to
    the summary and the sheet gets, below its data rows, one row for every
    event of the session and three for the meta events. *)
Theorem end_of_match_completes (runs : list (list Player * ui_input))
    (players : list Player) (f : end_form) (w : World) :
  session w = defaults →
  let w' := interactions runs w in
  wizard_step (session w') = 3%Z →
  faults w' = [] →
  ef_save f = true →
  let r := main players (OnRecord (BtnEndDialog f)) w' in
  r.1 = Rerun ∧
  wizard_step (session r.2) = 4%Z ∧
  ∃ rows,
    mapM _event_to_row (events (session r.2)) = Ret rows ∧
    length rows = length (events (session w')) + 3 ∧
    data_rows_of (sheets r.2) = data_rows_of (sheets w') ++ rows.
Proof.
  intros Hinit w' Hstep Hcalm Hsave.
  destruct (interactions_session_ok runs w) as (_ & _ & Htyped).
  { rewrite Hinit. apply session_ok_defaults. }
  destruct (interactions_sheet_known runs w) as [H1|Hcache];
    [left; by rewrite Hinit | fold w' in H1; congruence |].
  destruct (recording_has_match runs w Hinit Hstep) as [m Hm].
  fold w' in Htyped, Hcache, Hm.
  set (w1 := before_flush (match_id m) (match_players (session w')) f w').
  assert (Forall delta_typed (events (session w1))) as Htyped1.
  { apply wizard_events_typed, Forall_app.
    split; [done | apply end_metas_typed]. }
  destruct (typed_events_convert _ Htyped1) as (rows & Hrows & Hlen).
  pose proof (write_stats_rows_calm _ rows w1 Hrows Hcache Hcalm) as Hret.
  pose proof (write_stats_rows_session (events (session w1)) w1) as Hkeep.
  destruct (write_stats_rows (events (session w1)) w1) as [o w2] eqn:Hwrite.
  cbn [fst snd] in *. subst o.
  destruct (write_stats_rows_ret _ _ _ Hwrite) as (rows' & Hrows' & _ & Hdata & _).
  assert (rows' = rows) as -> by congruence.
  assert (main players (OnRecord (BtnEndDialog f)) w'
          = (Rerun, with_session (set_wizard_step 4) w2)) as ->.
  { unfold main. rewrite bind_run. cbn [get_session]. rewrite Hstep.
    cbn [bool_decide decide_rel].
    rewrite bool_decide_eq_false_2, bool_decide_eq_false_2,
      bool_decide_eq_true_2 by done.
    unfold step_record. rewrite bind_run. cbn [get_session]. rewrite Hm.
    rewrite bind_run. cbn [match_id_of mret M_ret].
    rewrite (end_dialog_run _ _ _ _ Hsave). cbv zeta. fold w1.
    by rewrite Hwrite. }
  cbv zeta. cbn [fst snd session with_session sheets].
  split; [done|]. split; [done|]. exists rows.
  rewrite Hkeep. cbn [events set_wizard_step]. split; [done|]. split; [|done].
  rewrite Hlen. cbn. rewrite length_app. done.
Qed.


(** ** ui_app.py: the counters of the Record page *)

Lemma filter_none {A} (P : A → Prop) `{!∀ x, Decision (P x)} (l : list A) :
  (∀ x, x ∈ l → ¬ P x) → filter P l = [].
Proof.
  induction l as [|a l IH]; intros Hnone; [done|].
  rewrite filter_cons_False by (apply Hnone; left).
  apply IH. intros x Hx. apply Hnone. by right.
Qed.

Lemma count_events_from (evs : list Event) :
  Forall (λ e, value_truthy (default VNone (e !! "player")) = true →
               is_Some (e !! "event")) evs →
  ∀ counts, ∃ c,
    count_events evs counts = Ret c ∧
    ∀ p t, count_of c (p, t)
           = count_of counts (p, t) + length (filter (counted p t) evs).
Proof.
  induction 1 as [|e evs He _ IH]; intros counts.
  - exists counts. split; [done|]. intros p t. cbn. lia.
  - cbn [count_events].
    destruct (value_truthy (default VNone (e !! "player"))) eqn:Htruthy.
    + destruct (He eq_refl) as [t Ht]. rewrite Ht.
      destruct (IH (<[(default VNone (e !! "player"), t)
                      := S (default 0 (counts !! (default VNone (e !! "player"), t)))]>
                    counts)) as (c & Hc & Hcount).
      exists c. split; [done|]. intros p t'. rewrite Hcount. unfold count_of.
      destruct (decide (counted p t' e)) as [Hyes|Hno].
      * rewrite (filter_cons_True _ _ _ Hyes).
        destruct Hyes as (_ & Hpl & Hev). rewrite Hpl. cbn [default id].
        assert (t' = t) as -> by congruence.
        rewrite lookup_insert_eq. cbn [default id length]. lia.
      * rewrite (filter_cons_False _ _ _ Hno).
        rewrite lookup_insert_ne; [done|]. intros [= <- <-]. apply Hno.
        split; [done|]. split; [|done].
        destruct (e !! "player"); [done | by cbn in Htruthy].
    + destruct (IH counts) as (c & Hc & Hcount).
      exists c. split; [done|]. intros p t'. rewrite Hcount.
      rewrite filter_cons_False; [done|]. intros (Hp & Hpl & _).
      rewrite Hpl in Htruthy. cbn in Htruthy. congruence.
Qed.

Lemma count_events_key_error (evs : list Event) :
  ¬ Forall (λ e, value_truthy (default VNone (e !! "player")) = true →
                 is_Some (e !! "event")) evs →
  ∀ counts, count_events evs counts = Raise KeyError.
Proof.
  induction evs as [|e evs IH]; intros Hnot counts.
  - destruct Hnot. constructor.
  - cbn [count_events].
    destruct (value_truthy (default VNone (e !! "player"))) eqn:Htruthy.
    + destruct (e !! "event") as [t|] eqn:Ht; [|done].
      apply IH. intros Hall. apply Hnot. constructor; [by eexists | done].
    + apply IH. intros Hall. apply Hnot. constructor; [by rewrite Htruthy | done].
Qed.

(** The counters of the Record page count, for every player and event
    type, the events of the list that carry both; events whose player is
    empty or missing are skipped. The loop raises [KeyError] exactly when
    some event with a player has no "event" entry. *)
Theorem counters_count_events (evs : list Event) :
  let keyed :=
    Forall (λ e, value_truthy (default VNone (e !! "player")) = true →
                 is_Some (e !! "event")) evs in
  (keyed →
   ∃ c, count_events evs ∅ = Ret c ∧
        ∀ p t, count_of c (p, t) = length (filter (counted p t) evs)) ∧
  (¬ keyed → count_events evs ∅ = Raise KeyError).
Proof.
  cbv zeta. split.
  - intros Hall. destruct (count_events_from evs Hall ∅) as (c & Hc & Hcount).
    exists c. split; [done|]. intros p t. by rewrite Hcount.
  - intros Hnot. by apply count_events_key_error.
Qed.

Lemma py_join_empty (sep : string) (l : list string) :
  Forall (λ x, x ≠ "") l → (py_join sep l = "" ↔ l = []).
Proof.
  intros Hl. split; [|by intros ->].
  destruct l as [|x [|y l]]; [done | |]; cbn [py_join]; intros Hjoin.
  - by apply Forall_cons in Hl as [? _].
  - apply Forall_cons in Hl as [Hx _]. destruct x; [done|].
    change (String a x +:+ sep +:+ py_join sep (y :: l))
      with (String a (x +:+ sep +:+ py_join sep (y :: l))) in Hjoin.
    discriminate.
Qed.

(** The badge beside a player's button is empty exactly when none of the
    listed event types has been counted for the player. *)
Theorem badge_empty_without_counts (counts : gmap (value * value) nat)
    (nm : string) :
  badge counts nm = ""
  ↔ ∀ lc, lc ∈ EVENT_TYPES → count_of counts (VStr nm, VStr lc.1) = 0.
Proof.
  unfold badge. rewrite py_join_empty.
  - split.
    + intros Hnil%fmap_nil_inv lc Hin.
      destruct (decide (0 < count_of counts (VStr nm, VStr lc.1))) as [Hpos|];
        [|lia].
      by destruct (filter_nil_not_elem_of _ _ _ Hnil Hpos).
    + intros Hzero. rewrite filter_none; [done|].
      intros lc Hin. rewrite (Hzero lc Hin). lia.
  - apply Forall_fmap, Forall_forall. intros [label code] _. cbn.
    destruct code; [done|]. discriminate.
Qed.

Lemma wizard_events_keyed (evs : list Event) :
  Forall wizard_event evs →
  Forall (λ e, value_truthy (default VNone (e !! "player")) = true →
               is_Some (e !! "event")) evs.
Proof. intros H. eapply Forall_impl; [exact H|]. by intros e [? _] _. Qed.

(** In a session that began with the defaults the counters never fail, and
    a registration adds one to the counter of the chosen player and event
    type and leaves every other counter as it was; the meta events of the
    two dialogs are never counted. *)
Theorem register_counts_one (runs : list (list Player * ui_input))
    (w : World) :
  session w = defaults →
  let w' := interactions runs w in
  wizard_step (session w') = 3%Z →
  can_register (session w') = true →
  let w2 := (step_record BtnRegister w').2 in
  ∃ c c' nm label,
    count_events (events (session w')) ∅ = Ret c ∧
    count_events (events (session w2)) ∅ = Ret c' ∧
    selected_player (session w') = Some nm ∧
    selected_event (session w') = Some label ∧
    (∀ t, count_of c' (VStr "", t) = 0) ∧
    ∀ k, count_of c' k
         = count_of c k + (if decide (k = (VStr nm, VStr label)) then 1 else 0).
Proof.
  intros Hinit w' Hstep Hcan.
  destruct (interactions_session_ok runs w) as (_ & [_ Hfind] & Hevents).
  { rewrite Hinit. apply session_ok_defaults. }
  fold w' in Hfind, Hevents.
  destruct (recording_has_match runs w Hinit Hstep) as [m Hm]. fold w' in Hm.
  pose proof Hcan as Hcan'. unfold can_register in Hcan'.
  apply andb_true_iff in Hcan' as [Hevent Htruthy].
  destruct (Hfind Htruthy) as [p Hp].
  assert (selected_player (session w') = Some (name p)) as Hname.
  { unfold find_player in Hp. rewrite Htruthy in Hp. cbn [negb] in Hp.
    by apply head_filter_Some in Hp as [Hsame _]. }
  destruct (selected_event (session w')) as [label|] eqn:Hlabel; [|done].
  cbv zeta. rewrite (register_hit w' p m Hcan Hp Hm).
  cbn [snd session with_session events set_events set_selected_event
       set_selected_player].
  pose proof (wizard_events_keyed _ Hevents) as Hkeyed.
  destruct (count_events_from _ Hkeyed ∅) as (c & Hc & Hcount).
  assert (Forall wizard_event
            (events (session w') ++ [registered_event p m w'])) as Hevents'.
  { apply Forall_app. split; [done|].
    constructor; [apply registered_event_typed | constructor]. }
  destruct (count_events_from _ (wizard_events_keyed _ Hevents') ∅)
    as (c' & Hc' & Hcount').
  exists c, c', (name p), label.
  split; [done|]. split; [done|]. split; [done|]. split; [done|]. split.
  - intros t. rewrite Hcount'. unfold count_of. rewrite lookup_empty.
    cbn [default]. apply length_zero_iff_nil.
    apply filter_none. by intros e _ [? _].
  - intros [p' t']. rewrite Hcount', Hcount, filter_app, length_app.
    unfold count_of. rewrite lookup_empty. cbn [default].
    assert (value_truthy (VStr (name p)) = true) as Hnonempty.
    { rewrite Hname in Htruthy. exact Htruthy. }
    assert (registered_event p m w' !! "player" = Some (VStr (name p))) as Hpl
      by done.
    assert (registered_event p m w' !! "event" = Some (VStr label)) as Hev.
    { unfold registered_event. rewrite Hlabel. done. }
    destruct (decide ((p', t') = (VStr (name p), VStr label))) as [[= -> ->]|Hne].
    + rewrite filter_cons_True by done. done.
    + rewrite filter_cons_False; [done|]. intros (_ & Hp' & Ht'). apply Hne.
      congruence.
Qed.


(** ** ui_app.py: the players of the match *)

Lemma fmap_NoDup_inj {A B} (f : A → B) (l : list A) (x y : A) :
  NoDup (f <$> l) → x ∈ l → y ∈ l → f x = f y → x = y.
Proof.
  induction l as [|a l IH]; intros Hnodup Hx Hy Hf; [by inversion Hx|].
  rewrite fmap_cons in Hnodup. apply NoDup_cons in Hnodup as [Hnew Hnodup].
  apply elem_of_cons in Hx as [->|Hx]; apply elem_of_cons in Hy as [->|Hy].
  - done.
  - destruct Hnew. rewrite Hf. by apply list_elem_of_fmap_2.
  - destruct Hnew. rewrite <- Hf. by apply list_elem_of_fmap_2.
  - by apply IH.
Qed.

Lemma filter_agree {A} (P Q : A → Prop) `{!∀ x, Decision (P x)}
    `{!∀ x, Decision (Q x)} (l : list A) :
  (∀ x, x ∈ l → (P x ↔ Q x)) → filter P l = filter Q l.
Proof.
  induction l as [|a l IH]; intros Hiff; [done|].
  rewrite !filter_cons.
  rewrite IH by (intros x Hx; apply Hiff; by right).
  destruct (decide (P a)) as [HP|HP], (decide (Q a)) as [HQ|HQ]; try done.
  - destruct HQ. apply Hiff; [left | done].
  - destruct HP. apply Hiff; [left | done].
Qed.

(** Picking by name among all players or among those a filter shows gives
    the same players when names are distinct and every picked name is
    shown. *)
Lemma picked_among_shown (Q : Player → Prop) `{!∀ p, Decision (Q p)}
    (players : list Player) (selected : list string) :
  NoDup (name <$> players) →
  selected ⊆ name <$> filter Q players →
  filter (λ p, name p ∈ selected) players
  = filter (λ p, name p ∈ selected) (filter Q players).
Proof.
  intros Hnodup Hshown. rewrite list_filter_filter.
  apply filter_agree. intros p Hp. split; [|by intros [? _]].
  intros Hsel. split; [done|].
  apply Hshown, list_elem_of_fmap in Hsel as (q & Hname & Hq).
  apply list_elem_of_filter in Hq as [HQ Hq].
  by rewrite (fmap_NoDup_inj name players p q Hnodup Hp Hq Hname).
Qed.

Lemma picked_among_filtered (team_filter pos_filter : string)
    (players : list Player) (selected : list string) :
  NoDup (name <$> players) →
  selected ⊆ name <$> filtered_players team_filter pos_filter players →
  filter (λ p, name p ∈ selected) players
  = filter (λ p, name p ∈ selected)
      (filtered_players team_filter pos_filter players).
Proof.
  unfold filtered_players. intros Hnodup.
  destruct (bool_decide (team_filter ≠ "Alle")),
    (bool_decide (pos_filter ≠ "Alle")).
  - rewrite list_filter_filter. by apply picked_among_shown.
  - by apply picked_among_shown.
  - by apply picked_among_shown.
  - done.
Qed.

(** Starting the match with names picked from the multiselect: when the
    names of the roster are distinct, the match players are the offered
    players whose names were picked, in the order of the roster, and there
    is at least one; the wizard moves to the Record page and nothing else
    of the session, the sheets or the request log changes. *)
Theorem start_match_players (players : list Player)
    (team_filter pos_filter : string) (selected : list string) (w : World) :
  NoDup (name <$> players) →
  selected ≠ [] →
  selected ⊆ name <$> filtered_players team_filter pos_filter players →
  let r := step_select_players players selected true w in
  let chosen := match_players (session r.2) in
  r.1 = Rerun ∧
  session r.2 = set_wizard_step 3 (set_match_players chosen (session w)) ∧
  chosen = filter (λ p, name p ∈ selected)
             (filtered_players team_filter pos_filter players) ∧
  chosen ≠ [] ∧
  (∀ nm, nm ∈ name <$> chosen ↔ nm ∈ selected) ∧
  sheets r.2 = sheets w ∧ api_log r.2 = api_log w.
Proof.
  intros Hnodup Hsome Hshown. cbv zeta.
  destruct selected as [|nm0 rest] eqn:Hsel; [done|]. rewrite <- Hsel in *.
  assert (step_select_players players selected true w
          = (Rerun,
             with_session
               (λ s, set_wizard_step 3
                       (set_match_players
                          (filter (λ p, name p ∈ selected) players) s)) w))
    as -> by (by rewrite Hsel).
  cbn [fst snd session with_session match_players set_wizard_step
       set_match_players sheets api_log].
  rewrite (picked_among_filtered team_filter pos_filter players selected
             Hnodup Hshown).
  assert (∀ nm, nm ∈ name <$> filter (λ p, name p ∈ selected)
                           (filtered_players team_filter pos_filter players)
                ↔ nm ∈ selected) as Hnames.
  { intros nm. rewrite list_elem_of_fmap. split.
    - intros (q & -> & Hq). by apply list_elem_of_filter in Hq as [? _].
    - intros Hnm. pose proof (Hshown nm Hnm) as Hq.
      apply list_elem_of_fmap in Hq as (q & -> & Hq).
      exists q. split; [done|]. by apply list_elem_of_filter. }
  split; [done|]. split; [done|]. split; [done|]. split; [|done].
  intros Hnil. assert (nm0 ∈ selected) as Hin by (rewrite Hsel; left).
  apply Hnames in Hin. rewrite Hnil in Hin. by inversion Hin.
Qed.


(** ** ui_app.py: the half-time dialog *)

(** "Gem" in the half-time dialog keeps the result in the session only: no
    request is made and the sheets stay as they are; one event is added at
    the end of the list, whose row will hold the clock reading, the match,
    the current half, the type HALVLEG_RESULTAT, delta 0 and the score as
    "ours-theirs"; the run then starts over. Without "Gem" nothing
    happens. *)
Theorem half_time_result_stays_local (mid : string) (f : half_form)
    (w : World) :
  let r := half_dialog mid f w in
  if hf_save f then
    r.1 = Rerun ∧
    sheets r.2 = sheets w ∧ api_log r.2 = api_log w ∧
    ∃ ev,
      session r.2 = set_events (events (session w) ++ [ev]) (session w) ∧
      _event_to_row ev
      = Ret [VStr (strftime_ymd_hms (clock w (clock_reads w))); VStr mid;
             VInt (current_half (session w)); VStr ""; VStr "HALVLEG_RESULTAT";
             VStr ""; VStr ""; VInt 0;
             VStr (pretty (hf_ours f) +:+ "-" +:+ pretty (hf_opp f))]
  else r = (Ret (), w).
Proof.
  cbv zeta. destruct (hf_save f) eqn:Hsave.
  - rewrite half_dialog_run by done.
    split; [done|]. split; [done|]. split; [done|].
    eexists. split; [reflexivity|]. done.
  - unfold half_dialog. by rewrite Hsave.
Qed.

End Program.

(** ** The properties at work on the sample data *)

Lemma create_match_id_format_witness :
  create_match_id (mk_date 2024 3 1) "1" " FC Falcon "
  = create_match_id (mk_date 2024 3 1) "1" " FC Falcon " ∧
  create_match_id (mk_date 2024 3 1) "1" " FC Falcon "
  = spec_match_id (mk_date 2024 3 1) "1" " FC Falcon ".
Proof.
  split.
  - apply (proj1 create_match_id_format); reflexivity.
  - apply (proj1 (proj2 create_match_id_format)).
Defined.

(** The pair of the specification's example does not collide. *)
Lemma spacing_example_distinct :
  create_match_id (mk_date 2024 3 1) "1" "FC Foo"
  ≠ create_match_id (mk_date 2024 3 1) "1" "FC  Foo".
Proof. by vm_compute. Qed.

Lemma internal_spacing_identifiers_witness :
  String.length (py_strip "FC Foo") ≠ String.length (py_strip "FC  Foo") ∧
  create_match_id (mk_date 2024 3 1) "1" "FC Foo"
  ≠ create_match_id (mk_date 2024 3 1) "1" "FC  Foo".
Proof.
  split; [by vm_compute|].
  apply (proj1 internal_spacing_identifiers). by vm_compute.
Defined.

(** A failed batch write leaves the three meta events in the session: the
    first request of the write raises, the wizard stays on step 3, and the
    event list has grown from one entry to four; a second, successful attempt
    then sends the meta events twice. *)
Lemma end_dialog_failure_keeps_meta_events :
  let w := sample_world recording [Some APIError] in
  let r := end_dialog int_never (match_id falcon) [anna] sample_end_form w in
  let r' := end_dialog int_never (match_id falcon) [anna] sample_end_form r.2 in
  r.1 = Raise APIError ∧
  wizard_step (session r.2) = 3%Z ∧
  session r.2 ≠ session w ∧
  length (events (session w)) = 1 ∧
  length (events (session r.2)) = 4 ∧
  r'.1 = Rerun ∧
  length (events (session r'.2)) = 7.
Proof.
  intros w r r'. repeat split; by vm_compute.
Qed.

Lemma end_dialog_write_raises_witness :
  let w := sample_world recording [Some APIError] in
  let w1 := before_flush (match_id falcon) [anna] sample_end_form w in
  let w' := (write_stats_rows int_never (events (session w1)) w1).2 in
  ef_save sample_end_form = true ∧
  write_stats_rows int_never (events (session w1)) w1 = (Raise APIError, w') ∧
  wizard_step (session w') = 3%Z ∧
  events (session w')
  = events (session w) ++ end_metas (match_id falcon) [anna] sample_end_form w.
Proof.
  intros w w1 w'.
  assert (write_stats_rows int_never (events (session w1)) w1
          = (Raise APIError, w')) as Hwrite by (by vm_compute).
  split; [done|]. split; [done|].
  destruct (end_dialog_write_raises int_never (match_id falcon) [anna]
              sample_end_form w w' APIError eq_refl Hwrite)
    as (_ & _ & Hstep & _ & _ & _ & _ & _ & Hevents).
  split; [exact Hstep | exact Hevents].
Defined.



Lemma events_append_only_witness :
  let w := sample_world choosing [] in
  let w' := interactions int_never sample_runs w in
  Forall (λ i, is_reset i.2 = false) sample_runs ∧
  events (session w) `prefix_of` events (session w') ∧
  length (events (session w')) = 2 ∧
  (∃ ev, events (session (step_record int_never BtnRegister w').2)
         = events (session w') ++ [ev] ∧
         ev !! "half" = Some (VInt 2)).
Proof.
  intros w w'.
  assert (Forall (λ i, is_reset i.2 = false) sample_runs) as Hruns
    by (repeat constructor).
  destruct (events_append_only int_never sample_runs w Hruns)
    as (Hpre & _ & Hreg & _).
  split; [done|]. split; [exact Hpre|]. split; [by vm_compute|].
  destruct (Hreg anna falcon) as (ev & Hev & _ & Hhalf); [by vm_compute..|].
  exists ev. split; [exact Hev|]. rewrite Hhalf. by vm_compute.
Defined.

Lemma empty_selection_rejected_witness :
  let w := sample_world choosing [] in
  let r := main int_never [anna] (OnSelectPlayers [] true) w in
  wizard_step (session w) = 2%Z ∧
  session r.2 = session w ∧
  warnings r.2 = ["Vælg mindst én spiller."].
Proof.
  intros w r. split; [done|].
  destruct (empty_selection_rejected int_never [anna] w eq_refl)
    as (_ & _ & Hsession & _ & _ & _ & _ & _ & _ & Hwarn).
  split; [exact Hsession | exact Hwarn].
Defined.

Lemma build_event_then_row_witness :
  let e : Event := registered_event anna falcon (sample_world armed []) in
  e !! "delta" = None ∧
  ∃ r, _event_to_row int_never e = Ret r ∧ r !! 7 = Some (VInt 1).
Proof.
  intros e. split; [done|].
  apply (build_event_then_row int_never anna (VStr "Mål") "m"
           (sample_world armed []) e eq_refl).
Defined.

Lemma write_stats_rows_empty_witness :
  let w := sample_world recording [] in
  let evs := events (session w) in
  (∃ c, c ∈ new_requests w (write_stats_rows int_never evs w).2 ∧
        is_append c = true) ∧
  evs ≠ [].
Proof.
  intros w evs.
  assert (AppendRows Sheet1 [[VStr "2024-03-01 18:30:00";
            VStr "2024-03-01_H1_FC_Falcon"; VInt 1; VStr "Anna"; VStr "Mål";
            VStr "VB"; VStr "1"; VInt 1; VStr ""]]
          ∈ new_requests w (write_stats_rows int_never evs w).2) as Hin.
  { vm_compute. repeat constructor. }
  split; [by eexists|].
  exact (proj2 (write_stats_rows_empty int_never w) evs _ Hin eq_refl).
Defined.


Lemma create_match_from_stored_witness :
  py_strip " FC Falcon " = py_strip "FC Falcon" ∧
  create_match (mk_date 2024 3 1) "1" " FC Falcon " = falcon.
Proof.
  assert (py_strip " FC Falcon " = py_strip "FC Falcon") as Hsame
    by (by vm_compute).
  split; [exact Hsame|].
  exact (proj1 (create_match_from_stored (mk_date 2024 3 1) "1" "FC Falcon"
                  " FC Falcon " Hsame)).
Defined.

Lemma found_default {A} (o : option A) (d : A) :
  (if o is Some _ then true else false) = true → o = Some (default d o).
Proof. by destruct o. Qed.

Lemma get_stats_for_match_rows_witness :
  let found := get_stats_for_match_from float_sample "M1" sample_stats_rows in
  let evs := default [] found in
  found = Some evs ∧
  length evs = 2 ∧
  Forall (λ e, e !! "match_id" = Some (VStr "M1") ∧ dom e = event_keys ∧
               ∃ z, e !! "delta" = Some (VInt z)) evs.
Proof.
  intros found evs.
  assert (found = Some evs) as Hevs
    by (apply found_default; vm_compute; reflexivity).
  split; [exact Hevs|].
  destruct (get_stats_for_match_rows float_sample "M1" sample_stats_rows evs
              Hevs) as (_ & Hlen & Hall).
  split; [|exact Hall].
  etrans; [exact Hlen | vm_compute; reflexivity].
Defined.

Lemma get_stats_for_match_default_delta_witness :
  let r := ["2024-03-01 18:32:00"; "M1"; "1"; "Anna"; "Assist"] in
  row_of_match "M1" r = true ∧
  length r ≤ 7 ∧
  get_stats_for_match_from float_sample "M1" [[]; r]
  = Some [event_of_row "M1" r 1].
Proof.
  intros r.
  assert (length r ≤ 7) as Hshort by (cbn; lia).
  split; [reflexivity|]. split; [exact Hshort|].
  exact (get_stats_for_match_default_delta float_sample "M1" [] r eq_refl
           (or_introl Hshort)).
Defined.

Lemma get_stats_for_match_overflow_witness :
  7 < length sample_overflow_row ∧
  py_strip (cell sample_overflow_row 7) ≠ "" ∧
  float_sample (cell sample_overflow_row 7) = FloatOverflow ∧
  get_stats_for_match_from float_sample "M1"
    ([] :: sample_overflow_row :: drop 1 sample_stats_rows) = None.
Proof.
  assert (7 < length sample_overflow_row) as Hlong by (cbn; lia).
  assert (py_strip (cell sample_overflow_row 7) ≠ "") as Hfull
    by (by vm_compute).
  split; [exact Hlong|]. split; [exact Hfull|]. split; [reflexivity|].
  exact (get_stats_for_match_overflow float_sample "M1" []
           sample_overflow_row (drop 1 sample_stats_rows) Hlong Hfull eq_refl).
Defined.

Lemma spreadsheet_opened_once_witness :
  let r := _get_stats_spreadsheet fresh in
  r.1 = Ret () ∧
  spreadsheet_cache (caches fresh) = false ∧
  spreadsheet_cache (caches r.2) = true ∧
  _get_stats_spreadsheet r.2 = (Ret (), r.2).
Proof.
  intros r.
  assert (_get_stats_spreadsheet fresh = (Ret (), r.2)) as Hrun
    by (by vm_compute).
  destruct (spreadsheet_opened_once fresh r.2 (Ret ()) Hrun) as [Hopen Hagain].
  split; [by vm_compute|]. split; [reflexivity|].
  split; [exact Hopen | exact Hagain].
Defined.

Lemma get_stats_worksheet_settles_witness :
  header_accepted (sheets fresh) ∧
  sheets (get_stats_worksheet fresh).2 = sheets fresh.
Proof.
  assert (header_accepted (sheets fresh)) as Hheader.
  { exists expected_header, []. split; [reflexivity|].
    split; [reflexivity | cbn; lia]. }
  split; [exact Hheader|].
  exact (proj1 (get_stats_worksheet_settles fresh Hheader)).
Defined.

Lemma write_stats_rows_appends_witness :
  let w := sample_world recording [] in
  let evs := events recording in
  let w1 := (write_stats_rows int_never evs w).2 in
  write_stats_rows int_never evs w = (Ret (), w1) ∧
  ∃ rows, mapM (_event_to_row int_never) evs = Ret rows ∧
          length rows = 1 ∧
          data_rows_of (sheets w1) = data_rows_of (sheets w) ++ rows.
Proof.
  intros w evs w1.
  assert (write_stats_rows int_never evs w = (Ret (), w1)) as Hrun
    by (by vm_compute).
  split; [exact Hrun|].
  destruct (write_stats_rows_appends int_never evs w w1 Hrun)
    as (rows & Hrows & Hlen & Hdata & _).
  exists rows. split; [exact Hrows|]. split; [exact Hlen | exact Hdata].
Defined.

Lemma write_stats_rows_bad_delta_witness :
  let evs : list Event := [{[ "delta" := VStr "x" ]}] in
  let r := write_stats_rows int_never evs fresh in
  mapM (_event_to_row int_never) evs = Raise ValueError ∧
  appends (new_requests fresh r.2) = [] ∧
  data_rows_of (sheets r.2) = data_rows_of (sheets fresh).
Proof.
  intros evs r.
  assert (mapM (_event_to_row int_never) evs = Raise ValueError) as Hbad
    by (by vm_compute).
  split; [exact Hbad|].
  exact (proj2 (write_stats_rows_bad_delta int_never evs fresh ValueError Hbad)).
Defined.

Lemma append_match_record_appends_witness :
  let r := append_match_record falcon fresh in
  append_match_record falcon fresh = (Ret (), r.2) ∧
  session r.2 = session fresh ∧
  matches_sheet (sheets r.2)
  = Some (matches_rows_found (sheets fresh) ++ [VStr <$> match_cells falcon]).
Proof.
  intros r.
  assert (append_match_record falcon fresh = (Ret (), r.2)) as Hrun
    by (by vm_compute).
  split; [exact Hrun|].
  destruct (append_match_record_appends falcon fresh r.2 (Ret ()) Hrun)
    as [Hsession Hsheet].
  split; [exact Hsession|]. exact (proj1 (Hsheet eq_refl)).
Defined.

Lemma register_always_registers_witness :
  let w' := interactions int_never full_runs fresh in
  session fresh = defaults ∧
  wizard_step (session w') = 3%Z ∧
  can_register (session w') = true ∧
  ∃ p m, p ∈ match_players (session w') ∧
         selected_player (session w') = Some (name p) ∧
         current_match (session w') = Some m ∧
         warnings (step_record int_never BtnRegister w').2 = warnings w'.
Proof.
  intros w'.
  assert (wizard_step (session w') = 3%Z) as Hstep by (by vm_compute).
  assert (can_register (session w') = true) as Hcan by (by vm_compute).
  split; [reflexivity|]. split; [exact Hstep|]. split; [exact Hcan|].
  destruct (register_always_registers int_never full_runs fresh eq_refl
              Hstep Hcan) as (p & m & Hin & Hname & Hmatch & _ & Hwarn).
  exists p, m. split; [exact Hin|]. split; [exact Hname|].
  split; [exact Hmatch | exact Hwarn].
Defined.

Lemma session_events_convert_witness :
  let evs := events (session (interactions int_never full_runs fresh)) in
  session fresh = defaults ∧
  length evs = 2 ∧
  ∃ rows, mapM (_event_to_row int_never) evs = Ret rows ∧
          length rows = length evs.
Proof.
  intros evs. split; [reflexivity|]. split; [by vm_compute|].
  exact (proj2 (session_events_convert int_never full_runs fresh eq_refl)).
Defined.

Lemma end_of_match_completes_witness :
  let w' := interactions int_never full_runs fresh in
  let r := main int_never [anna] (OnRecord (BtnEndDialog sample_end_form)) w' in
  session fresh = defaults ∧
  wizard_step (session w') = 3%Z ∧
  faults w' = [] ∧
  ef_save sample_end_form = true ∧
  r.1 = Rerun ∧
  wizard_step (session r.2) = 4%Z ∧
  ∃ rows, length rows = length (events (session w')) + 3 ∧
          data_rows_of (sheets r.2) = data_rows_of (sheets w') ++ rows.
Proof.
  intros w' r.
  assert (wizard_step (session w') = 3%Z) as Hstep by (by vm_compute).
  assert (faults w' = []) as Hcalm by (by vm_compute).
  destruct (end_of_match_completes int_never full_runs [anna] sample_end_form
              fresh eq_refl Hstep Hcalm eq_refl)
    as (Hrerun & Hsummary & rows & _ & Hlen & Hdata).
  split; [reflexivity|]. split; [exact Hstep|]. split; [exact Hcalm|].
  split; [reflexivity|]. split; [exact Hrerun|]. split; [exact Hsummary|].
  exists rows. split; [exact Hlen | exact Hdata].
Defined.

Lemma counters_count_events_witness :
  ∃ c, count_events (events recording) ∅ = Ret c ∧
       count_of c (VStr "Anna", VStr "Mål") = 1 ∧
       count_of c (VStr "Anna", VStr "Assist") = 0.
Proof.
  destruct (proj1 (counters_count_events (events recording)))
    as (c & Hc & Hcount).
  { repeat constructor. intros _. by eexists. }
  exists c. split; [exact Hc|]. rewrite !Hcount. split; by vm_compute.
Defined.

Lemma register_counts_one_witness :
  let w' := interactions int_never full_runs fresh in
  let w2 := (step_record int_never BtnRegister w').2 in
  session fresh = defaults ∧
  wizard_step (session w') = 3%Z ∧
  can_register (session w') = true ∧
  ∃ c c', count_events (events (session w')) ∅ = Ret c ∧
          count_events (events (session w2)) ∅ = Ret c' ∧
          count_of c' (VStr "Anna", VStr "Assist")
          = count_of c (VStr "Anna", VStr "Assist") + 1.
Proof.
  intros w' w2.
  assert (wizard_step (session w') = 3%Z) as Hstep by (by vm_compute).
  assert (can_register (session w') = true) as Hcan by (by vm_compute).
  split; [reflexivity|]. split; [exact Hstep|]. split; [exact Hcan|].
  destruct (register_counts_one int_never full_runs fresh eq_refl Hstep Hcan)
    as (c & c' & nm & label & Hc & Hc' & Hnm & Hlabel & _ & Hone).
  exists c, c'. split; [exact Hc|]. split; [exact Hc'|].
  assert (nm = "Anna") as -> by (vm_compute in Hnm; congruence).
  assert (label = "Assist") as -> by (vm_compute in Hlabel; congruence).
  rewrite Hone. by rewrite decide_True.
Defined.

Lemma start_match_players_witness :
  let r := step_select_players [anna; bo] ["Anna"] true
             (sample_world choosing []) in
  NoDup (name <$> [anna; bo]) ∧
  ["Anna"] ⊆ name <$> filtered_players "1" "Alle" [anna; bo] ∧
  r.1 = Rerun ∧
  match_players (session r.2) = [anna].
Proof.
  intros r.
  assert (NoDup (name <$> [anna; bo])) as Hnodup
    by (apply (bool_decide_unpack _); by vm_compute).
  assert (["Anna"] ⊆ name <$> filtered_players "1" "Alle" [anna; bo])
    as Hshown.
  { intros nm Hnm. apply list_elem_of_singleton in Hnm as ->.
    apply (bool_decide_unpack _). by vm_compute. }
  assert (["Anna"] ≠ []) as Hsome by discriminate.
  destruct (start_match_players [anna; bo] "1" "Alle" ["Anna"]
              (sample_world choosing []) Hnodup Hsome Hshown)
    as (Hrerun & _ & Hchosen & _).
  split; [exact Hnodup|]. split; [exact Hshown|]. split; [exact Hrerun|].
  etrans; [exact Hchosen | by vm_compute].
Defined.
